(** * AiStockScout: the response parser, the Gemini service layer and
      the dashboard orchestration, embedded in Rocq.

    Sources embedded here:
    - [src/types.ts]                      the data model;
    - [src/services/geminiService.ts]     [parseStockCSV], [scanMarketSector],
                                          [fetchMarketSnapshot],
                                          [analyzeStockWithGemini];
    - the application component (App)     [loadMarketData],
                                          [handleScanForValue], [handleStockClick],
                                          [handleSearchSelect], [analyzeStock],
                                          [handleBack].

    Conventions of the embedding.
    - A JavaScript string is the list of its UTF-16 code units ([jsstring]).
    - A JavaScript number is [NaN], an infinity, or a finite value kept as an
      exact rational: the rounding of binary64, its overflow to an infinity
      and its underflow to zero are not part of the model.  The statements
      below read of a parsed number whether it is [NaN], whether it is zero,
      which text it was read from, and how two scores compare; they are
      meant for the numbers binary64 holds exactly, such as the integers
      below 2^53 in magnitude, and say nothing of a digit run long enough to
      be rounded or to overflow.  The one arithmetic the dashboard does, the
      progress percentage, is also replayed in binary64, see [Binary64].
      The two zeros are identified.
    - [undefined] is [None].
    - A function that can throw returns a [Result]; asynchronous code is
      sequenced in a state-and-exception monad over a [World] that holds the
      component state, the trace of committed states, the alerts shown and the
      requests sent to the generative service. *)

From Stdlib Require Import List Bool Arith ZArith NArith QArith Qround Lia Lqa.
From Stdlib Require Import Strings.String Strings.Ascii.
From Stdlib Require Import Sorting.Sorted Sorting.Permutation.
From Stdlib Require Import Floats.SpecFloat.
Import ListNotations.

Set Implicit Arguments.
Open Scope nat_scope.

(* ================================================================== *)
(** ** JavaScript strings *)
(* ================================================================== *)

Module JsString.

(** A UTF-16 code unit. *)
Definition char16 := N.
Definition jsstring := list char16.

(** A string literal of the source, for ASCII text. *)
Definition lit (s : string) : jsstring :=
  map N_of_ascii (list_ascii_of_string s).
Arguments lit s%_string.

Definition COMMA : char16 := 44%N.
Definition NEWLINE : char16 := 10%N.
Definition DQUOTE : char16 := 34%N.
Definition SQUOTE : char16 := 39%N.
(** U+20B9, the rupee sign of the prompts. *)
Definition RUPEE : char16 := 8377%N.

Definition jsstring_eqb (a b : jsstring) : bool :=
  if list_eq_dec N.eq_dec a b then true else false.

(** [s.includes(c)] for a one-character needle. *)
Definition includes (c : char16) (s : jsstring) : bool :=
  existsb (N.eqb c) s.

(** [s.split(c)] for a one-character separator: never empty, [''.split(c)]
    is [['']]. *)
Fixpoint split (sep : char16) (s : jsstring) : list jsstring :=
  match s with
  | [] => [[]]
  | c :: s' =>
      if N.eqb c sep then [] :: split sep s'
      else match split sep s' with
           | [] => [[c]]
           | p :: ps => (c :: p) :: ps
           end
  end.

(** [s.replace(re, '')] for the global pattern matching one single or double
    quote: every quote character goes, wherever it is in the string. *)
Definition isQuote (c : char16) : bool :=
  N.eqb c SQUOTE || N.eqb c DQUOTE.

Definition replace_quotes (s : jsstring) : jsstring :=
  filter (fun c => negb (isQuote c)) s.

(** WhiteSpace and LineTerminator of ECMA-262, the characters [trim],
    [parseFloat] and [parseInt] skip. *)
Definition isWhiteSpace (c : char16) : bool :=
  ((9 <=? c) && (c <=? 13) || N.eqb c 32 || N.eqb c 160 || N.eqb c 5760
   || (8192 <=? c) && (c <=? 8202) || N.eqb c 8232 || N.eqb c 8233
   || N.eqb c 8239 || N.eqb c 8287 || N.eqb c 12288 || N.eqb c 65279)%N.

Fixpoint trimStart (s : jsstring) : jsstring :=
  match s with
  | [] => []
  | c :: s' => if isWhiteSpace c then trimStart s' else s
  end.

Definition trimEnd (s : jsstring) : jsstring :=
  rev (trimStart (rev s)).

Definition trim (s : jsstring) : jsstring :=
  trimEnd (trimStart s).

(** [arr.join(sep)] for a one-character separator. *)
Fixpoint join (sep : char16) (l : list jsstring) : jsstring :=
  match l with
  | [] => []
  | [s] => s
  | s :: l' => s ++ sep :: join sep l'
  end.

End JsString.
Export JsString.

(* ================================================================== *)
(** ** JavaScript numbers *)
(* ================================================================== *)

Module JsNumber.

Inductive number : Type :=
| NaN
| Infinity (negative : bool)
| Finite (q : Q).

Definition zero : number := Finite 0.
Definition ofZ (z : Z) : number := Finite (inject_Z z).
Definition ofNat (n : nat) : number := ofZ (Z.of_nat n).

Definition isNaN (x : number) : bool :=
  match x with NaN => true | _ => false end.

(** ToBoolean on a number: [NaN] and zero are falsy. *)
Definition truthy (x : number) : bool :=
  match x with
  | NaN => false
  | Infinity _ => true
  | Finite q => negb (Qeq_bool q 0)
  end.

(** [x || y] on numbers. *)
Definition num_or (x y : number) : number :=
  if truthy x then x else y.

(** [x - y]. *)
Definition sub (x y : number) : number :=
  match x, y with
  | NaN, _ | _, NaN => NaN
  | Infinity a, Infinity b => if Bool.eqb a b then NaN else Infinity a
  | Infinity a, Finite _ => Infinity a
  | Finite _, Infinity b => Infinity (negb b)
  | Finite p, Finite q => Finite (Qred (p - q))
  end.

(** [x * y]. *)
Definition mul (x y : number) : number :=
  match x, y with
  | NaN, _ | _, NaN => NaN
  | Infinity a, Infinity b => Infinity (xorb a b)
  | Infinity a, Finite q | Finite q, Infinity a =>
      match Qcompare q 0 with
      | Eq => NaN
      | Lt => Infinity (negb a)
      | Gt => Infinity a
      end
  | Finite p, Finite q => Finite (Qred (p * q))
  end.

(** [x / y]; the two zeros being identified, [q / 0] takes the sign of [q]. *)
Definition div (x y : number) : number :=
  match x, y with
  | NaN, _ | _, NaN => NaN
  | Infinity _, Infinity _ => NaN
  | Infinity a, Finite q =>
      match Qcompare q 0 with Lt => Infinity (negb a) | _ => Infinity a end
  | Finite _, Infinity _ => Finite 0
  | Finite p, Finite q =>
      match Qcompare q 0 with
      | Eq => match Qcompare p 0 with
              | Eq => NaN
              | Lt => Infinity true
              | Gt => Infinity false
              end
      | _ => Finite (Qred (p / q))
      end
  end.

(** [Math.round(x)]: the integer nearest to [x], ties upwards. *)
Definition Math_round (x : number) : number :=
  match x with
  | Finite q => Finite (inject_Z (Qfloor (q + (1 # 2))))
  | _ => x
  end.

(** [x < 0] and [x > 0]; both false on [NaN]. *)
Definition ltZero (x : number) : bool :=
  match x with
  | NaN => false
  | Infinity s => s
  | Finite q => match Qcompare q 0 with Lt => true | _ => false end
  end.

Definition gtZero (x : number) : bool :=
  match x with
  | NaN => false
  | Infinity s => negb s
  | Finite q => match Qcompare q 0 with Gt => true | _ => false end
  end.

(** [x === 0]. *)
Definition isZero (x : number) : bool :=
  match x with
  | Finite q => Qeq_bool q 0
  | _ => false
  end.

(** [x <= y]; false as soon as one side is [NaN]. *)
Definition num_leb (x y : number) : bool :=
  match x, y with
  | NaN, _ | _, NaN => false
  | Infinity true, _ => true
  | _, Infinity false => true
  | Infinity false, _ => false
  | _, Infinity true => false
  | Finite p, Finite q => Qle_bool p q
  end.

(** [x === y]. *)
Definition strictEq (x y : number) : bool :=
  match x, y with
  | Infinity a, Infinity b => Bool.eqb a b
  | Finite p, Finite q => Qeq_bool p q
  | _, _ => false
  end.

(** The values a variable takes, from the values written to it: a write of
    the value it already holds changes nothing. *)
Fixpoint valuesTaken (l : list number) : list number :=
  match l with
  | x :: (y :: _) as l' =>
      if strictEq x y then valuesTaken l' else x :: valuesTaken l'
  | _ => l
  end.

(** *** Numeric literals of strings *)

Definition isDigit (c : char16) : bool := ((48 <=? c) && (c <=? 57))%N.

Definition digitValue (c : char16) : Z := Z.of_N (c - 48).

(** The value of a hexadecimal digit, if it is one. *)
Definition hexValue (c : char16) : option Z :=
  if ((48 <=? c) && (c <=? 57))%N then Some (Z.of_N (c - 48))
  else if ((65 <=? c) && (c <=? 70))%N then Some (Z.of_N (c - 55))
  else if ((97 <=? c) && (c <=? 102))%N then Some (Z.of_N (c - 87))
  else None.

(** The longest prefix of decimal digits and what follows it. *)
Fixpoint spanDigits (s : jsstring) : list char16 * jsstring :=
  match s with
  | c :: s' =>
      if isDigit c then let (ds, r) := spanDigits s' in (c :: ds, r)
      else ([], s)
  | [] => ([], [])
  end.

Definition decimalValue (ds : list char16) : Z :=
  fold_left (fun acc c => 10 * acc + digitValue c)%Z ds 0%Z.

Fixpoint spanHex (s : jsstring) : list Z * jsstring :=
  match s with
  | c :: s' =>
      match hexValue c with
      | Some v => let (ds, r) := spanHex s' in (v :: ds, r)
      | None => ([], s)
      end
  | [] => ([], [])
  end.

Definition hexadecimalValue (ds : list Z) : Z :=
  fold_left (fun acc v => 16 * acc + v)%Z ds 0%Z.

(** An optional sign: [true] for a minus. *)
Definition spanSign (s : jsstring) : bool * jsstring :=
  match s with
  | 43%N :: r => (false, r)
  | 45%N :: r => (true, r)
  | _ => (false, s)
  end.

Fixpoint isPrefix (p s : jsstring) : option jsstring :=
  match p, s with
  | [], _ => Some s
  | a :: p', b :: s' => if N.eqb a b then isPrefix p' s' else None
  | _ :: _, [] => None
  end.

(** [m * 10^e], exactly. *)
Definition scale10 (m e : Z) : Q :=
  if (0 <=? e)%Z then inject_Z (m * 10 ^ e)
  else Qred (Qmake m (Z.to_pos (10 ^ (- e)))).

(** The ExponentPart of a StrDecimalLiteral, when it is well formed:
    [e] or [E], an optional sign, at least one digit.  A malformed
    exponent is not part of the longest prefix: it counts as absent. *)
Definition spanExponent (s : jsstring) : Z :=
  match s with
  | c :: r =>
      if (N.eqb c 101 || N.eqb c 69)%N then
        let (neg, r1) := spanSign r in
        let (ds, _) := spanDigits r1 in
        match ds with
        | [] => 0%Z
        | _ => if neg then (- decimalValue ds)%Z else decimalValue ds
        end
      else 0%Z
  | [] => 0%Z
  end.

(** [parseFloat(s)]: leading white space is skipped, the longest prefix that
    is a StrDecimalLiteral is read, [NaN] when there is none.  The value is
    the exact rational the literal denotes; the language rounds it to the
    nearest binary64, which gives an infinity for a literal of magnitude
    about 1.8e308 or more and zero for one below about 5e-324.  Whether the
    result is [NaN] is the same here and there. *)
Definition parseFloat (s : jsstring) : number :=
  let (neg, r0) := spanSign (trimStart s) in
  match isPrefix (lit "Infinity") r0 with
  | Some _ => Infinity neg
  | None =>
      let (ip, r1) := spanDigits r0 in
      let (fp, r2) :=
        match r1 with
        | 46%N :: r => spanDigits r
        | _ => ([], r1)
        end in
      match ip ++ fp with
      | [] => NaN
      | ds =>
          let m := decimalValue ds in
          let e := (spanExponent r2 - Z.of_nat (List.length fp))%Z in
          Finite (scale10 (if neg then - m else m) e)
      end
  end.

(** [parseInt(s)] with no radix: leading white space is skipped, a sign is
    read, a [0x] or [0X] prefix switches to radix 16, then the longest run
    of digits of the radix is read; [NaN] when the run is empty.  The value
    is the exact integer the run denotes; the language rounds it to the
    nearest binary64, so that a run denoting more than 2^53 may come out as
    a neighbouring integer and a run of some 309 decimal digits or more as
    an infinity.  Whether the result is [NaN] is the same here and there. *)
Definition parseInt (s : jsstring) : number :=
  let (neg, r0) := spanSign (trimStart s) in
  let signed (m : Z) := ofZ (if neg then - m else m) in
  match r0 with
  | 48%N :: x :: r =>
      if (N.eqb x 120 || N.eqb x 88)%N then
        match fst (spanHex r) with
        | [] => NaN
        | ds => signed (hexadecimalValue ds)
        end
      else
        signed (decimalValue (fst (spanDigits r0)))
  | _ =>
      match fst (spanDigits r0) with
      | [] => NaN
      | ds => signed (decimalValue ds)
      end
  end.

End JsNumber.
Export JsNumber.

(* ================================================================== *)
(** ** The data model (src/types.ts) *)
(* ================================================================== *)

Inductive ValuationMethod := DCF | RELATIVE | GRAHAM.

Inductive SentimentType := POSITIVE | NEUTRAL | NEGATIVE.

Inductive Recommendation := BUY | HOLD | SELL.

Record Stock := {
  symbol : jsstring;
  name : jsstring;
  sector : jsstring;
  price : number;
  changePercent : number;
  marketCap : jsstring;
  reason : option jsstring;
  score : option number
}.

Record ValuationMetric := {
  method : ValuationMethod;
  value : number;
  details : jsstring
}.

Record Source := {
  title : jsstring;
  uri : jsstring
}.

Record StockAnalysis := {
  companyName : jsstring;
  currentPrice : number;
  intrinsicValue : number;
  marginOfSafety : number;
  recommendation : Recommendation;
  valuationMetrics : list ValuationMetric;
  sentimentScore : number;
  sentimentLabel : SentimentType;
  sentimentSummary : jsstring;
  sectorMomentum : jsstring;
  strengths : list jsstring;
  risks : list jsstring;
  sources : list Source
}.

Inductive View := dashboard | detail.

Record DashboardState := {
  stocks : list Stock;
  selectedStock : option Stock;
  analysis : option StockAnalysis;
  loading : bool;
  view : View;
  scanMode : bool;
  progress : number;
  scanStatus : jsstring
}.

(* ================================================================== *)
(** ** Exceptions *)
(* ================================================================== *)

(** A thrown value: [new Error(message)], or whatever the service client
    rejects with. *)
Inductive Error := MkError (message : jsstring).

Inductive Result (A : Type) : Type :=
| Return (a : A)
| Throw (e : Error).
Arguments Return {A} a.
Arguments Throw {A} e.

(* ================================================================== *)
(** ** The CSV parser (src/services/geminiService.ts, parseStockCSV) *)
(* ================================================================== *)

(** ToBoolean on a possibly undefined string: [undefined] and [''] are
    falsy. *)
Definition truthyString (s : option jsstring) : bool :=
  match s with
  | Some (_ :: _) => true
  | _ => false
  end.

(** [clean = (s) => s ? s.replace(quotes, '').trim() : ''] *)
Definition clean (s : option jsstring) : jsstring :=
  match s with
  | Some s' => if truthyString s then trim (replace_quotes s') else []
  | None => []
  end.

(** The same function with its one partial operation made visible: a
    method called on [undefined] throws a TypeError, and [parts[i]] is
    [undefined] past the end of the array.  The test [s ?] of [clean] is what
    keeps the call away from [undefined]. *)
Definition replace_trim (s : option jsstring) : Result jsstring :=
  match s with
  | Some s' => Return (trim (replace_quotes s'))
  | None => Throw (MkError (lit "Cannot read properties of undefined"))
  end.

Definition clean_checked (s : option jsstring) : Result jsstring :=
  if truthyString s then replace_trim s else Return [].

(** The value of [parts[i]] read as a string by [parseInt(parts[6])]: the
    call is guarded by [parts[6] &&], so the string is there. *)
Definition orEmpty (s : option jsstring) : jsstring :=
  match s with Some s' => s' | None => [] end.

(** The body of the [for] loop: one line, the array [stocks] it may push
    to. *)
Definition parseStockCSV_step (stocks : list Stock) (line : jsstring)
  : list Stock :=
  let parts := split COMMA line in
  if 6 <=? List.length parts then
    let price := parseFloat (clean (nth_error parts 3)) in
    let change := parseFloat (clean (nth_error parts 4)) in
    if negb (isNaN price) then
      stocks ++
      [ {| symbol := clean (nth_error parts 0);
           name := clean (nth_error parts 1);
           sector := clean (nth_error parts 2);
           price := price;
           changePercent := if isNaN change then zero else change;
           marketCap := clean (nth_error parts 5);
           score :=
             Some (if truthyString (nth_error parts 6)
                   then parseInt (clean (nth_error parts 6))
                   else zero);
           reason :=
             if truthyString (nth_error parts 7)
             then Some (clean (nth_error parts 7))
             else if truthyString (nth_error parts 6)
                     && isNaN (parseInt (orEmpty (nth_error parts 6)))
                  then Some (clean (nth_error parts 6))
                  else None |} ]
    else stocks
  else stocks.

Definition parseStockCSV (text : jsstring) : list Stock :=
  let lines := filter (includes COMMA) (split NEWLINE text) in
  fold_left parseStockCSV_step lines [].

(** What one line contributes: the loop body run on an empty array. *)
Definition parseLine (line : jsstring) : list Stock :=
  parseStockCSV_step [] line.

(** *** What the specification says of a cleaned field

    [Stripped raw out]: [out] is [raw] without its quote characters and
    without the white space around what is left; nothing else goes. *)
Definition startsClean (s : jsstring) : Prop :=
  match s with
  | c :: _ => isWhiteSpace c = false
  | [] => True
  end.

Definition Stripped (raw out : jsstring) : Prop :=
  exists pre post,
    filter (fun c => negb (isQuote c)) raw = pre ++ out ++ post
    /\ forallb isWhiteSpace pre = true
    /\ forallb isWhiteSpace post = true
    /\ startsClean out
    /\ startsClean (rev out).

(** The reading under which only the quotes and the white space at the two
    ends of a field go, and the inside of the field is kept as it is. *)
Fixpoint dropEdge (s : jsstring) : jsstring :=
  match s with
  | c :: s' => if isQuote c || isWhiteSpace c then dropEdge s' else s
  | [] => []
  end.

Definition stripEdges (s : jsstring) : jsstring :=
  rev (dropEdge (rev (dropEdge s))).

(* ================================================================== *)
(** ** Exceptions, the generative service and the world *)
(* ================================================================== *)

(** What the service attaches to a grounded answer:
    [candidates?.[0]?.groundingMetadata?.groundingChunks], each chunk with
    an optional [web] record of optional strings. *)
Record Web := {
  web_title : option jsstring;
  web_uri : option jsstring
}.

Record GroundingChunk := {
  web : option Web
}.

Record Response := {
  text : option jsstring;
  groundingChunks : option (list GroundingChunk)
}.

Inductive Schema := analysisSchema.

Record Config := {
  googleSearch : bool;
  temperature : option number;
  responseMimeType : option jsstring;
  responseSchema : option Schema
}.

Record Request := {
  model : jsstring;
  contents : jsstring;
  config : Config
}.

(** How a call to [ai.models.generateContent] settles. *)
Inductive Outcome :=
| Rejected (e : Error)
| Resolved (r : Response).

(** What [JSON.parse] gives when it does not throw: an object, or [null]
    or a primitive value (a number, a string, a boolean).  The cast to
    [StockAnalysis] is not checked at run time; the embedding follows the
    declared type for an object, which it reads as a record with every field
    of [StockAnalysis]: an object that lacks some of them is not in the
    model. *)
Inductive Parsed :=
| ParsedObject (analysis' : StockAnalysis)
| ParsedPrimitive.

(** What surrounds the program: the configured key, the clock, the
    conversion of a number spliced into a template, the remote service
    (its answer may depend on every request sent before) and [JSON.parse],
    which throws on a text that is not JSON. *)
Record Environment := {
  apiKey : jsstring;
  today : jsstring;
  numberToString : number -> jsstring;
  generateContent : list Request -> Request -> Outcome;
  JSON_parse : jsstring -> Result Parsed
}.

(** The state a run threads: the component state, every state committed by
    [setState] (oldest first), the alerts shown, the requests sent to the
    service (oldest first), and the error React is left with when a state
    updater throws. *)
Record World := {
  state : DashboardState;
  commits : list DashboardState;
  alerts : list jsstring;
  requests : list Request;
  crashed : option Error
}.

Definition M (A : Type) : Type := World -> Result A * World.

Definition ret {A} (a : A) : M A := fun w => (Return a, w).

Definition bind {A B} (m : M A) (k : A -> M B) : M B :=
  fun w =>
    match m w with
    | (Return a, w') => k a w'
    | (Throw e, w') => (Throw e, w')
    end.

Definition throw {A} (e : Error) : M A := fun w => (Throw e, w).

(** [try { body } catch (e) { handler }] *)
Definition try_catch {A} (body : M A) (handler : Error -> M A) : M A :=
  fun w =>
    match body w with
    | (Return a, w') => (Return a, w')
    | (Throw e, w') => handler e w'
    end.

Declare Scope js_scope.
Delimit Scope js_scope with js.
Notation "x <- m ;; k" := (bind m (fun x => k))
  (at level 61, m at next level, right associativity) : js_scope.
Notation "m ;; k" := (bind m (fun _ => k))
  (at level 61, right associativity) : js_scope.
Open Scope js_scope.

(** [await ai.models.generateContent(request)] *)
Definition call (env : Environment) (request : Request) : M Response :=
  fun w =>
    let w' := {| state := state w; commits := commits w; alerts := alerts w;
                 requests := requests w ++ [request];
                 crashed := crashed w |} in
    match generateContent env (requests w) request with
    | Rejected e => (Throw e, w')
    | Resolved r => (Return r, w')
    end.

(** The world once [s] is committed. *)
Definition committed (s : DashboardState) (w : World) : World :=
  {| state := s; commits := commits w ++ [s]; alerts := alerts w;
     requests := requests w; crashed := crashed w |}.

(** [setState(updater)]: the updater is applied to the latest state and the
    result is committed. *)
Definition setState (updater : DashboardState -> DashboardState) : M unit :=
  fun w =>
    let s := updater (state w) in
    (Return tt,
     {| state := s; commits := commits w ++ [s]; alerts := alerts w;
        requests := requests w; crashed := crashed w |}).

(** [setState(updater)] for an updater that can throw: React runs the
    updater when it processes the queue, outside the [try] of the caller,
    so the call returns and the error is React's. *)
Definition setStateWith (updater : DashboardState -> Result DashboardState)
  : M unit :=
  fun w =>
    match updater (state w) with
    | Return s =>
        (Return tt,
         {| state := s; commits := commits w ++ [s]; alerts := alerts w;
            requests := requests w; crashed := crashed w |})
    | Throw e =>
        (Return tt,
         {| state := state w; commits := commits w; alerts := alerts w;
            requests := requests w; crashed := Some e |})
    end.

Definition alert (message : jsstring) : M unit :=
  fun w =>
    (Return tt,
     {| state := state w; commits := commits w;
        alerts := alerts w ++ [message];
        requests := requests w; crashed := crashed w |}).

(** [s || d] on a possibly undefined string. *)
Definition string_or (s : option jsstring) (d : jsstring) : jsstring :=
  if truthyString s then orEmpty s else d.

(* ================================================================== *)
(** ** The service layer (src/services/geminiService.ts) *)
(* ================================================================== *)

Definition MODEL : jsstring := lit "gemini-2.5-flash".

(** The prompt of the sector scan, line by line. *)
Definition scanPrompt (env : Environment) (sectorName : jsstring) : jsstring :=
  join NEWLINE
    [ [];
      lit "    Act as a senior portfolio manager specializing in Value Investing.";
      lit "    Target Universe: Nifty 200 Stocks in the **" ++ sectorName ++ lit "** sector.";
      lit "    Current Date: " ++ today env ++ lit ".";
      lit "    ";
      lit "    OBJECTIVE: Identify up to 4 " ++ [DQUOTE] ++ lit "High Conviction" ++ [DQUOTE] ++ lit " undervalued stocks specifically within " ++ sectorName ++ lit ".";
      [];
      lit "    INSTRUCTIONS:";
      lit "    1. **Search & Verify**: Use Google Search to find *recent* valuations and sector trends for " ++ sectorName ++ lit " in India.";
      lit "    2. **Selection Criteria**:";
      lit "       - Must be in " ++ sectorName ++ lit ".";
      lit "       - Must be trading below intrinsic value.";
      lit "       - Prefer stocks with positive sector momentum or " ++ [DQUOTE] ++ lit "best in class" ++ [DQUOTE] ++ lit " resilience.";
      lit "    3. **Scoring**: Assign a " ++ [DQUOTE] ++ lit "Conviction Score" ++ [DQUOTE] ++ lit " (0-100) based on margin of safety + quality.";
      lit "    4. **Data**: Get real-time Price and Change %.";
      [];
      lit "    Output STRICTLY in CSV format (NO markdown, NO headers).";
      lit "    Format: SYMBOL,NAME,SECTOR,PRICE,CHANGE_PERCENT,MARKET_CAP,CONVICTION_SCORE,REASON";
      lit "    ";
      lit "    Example:";
      lit "    HDFCBANK,HDFC Bank,Financials,1450.00,-0.5,11.5T,92,Sector leader available at historical low valuations.";
      lit "  " ].

Definition scanRequest (env : Environment) (sectorName : jsstring) : Request :=
  {| model := MODEL;
     contents := scanPrompt env sectorName;
     config := {| googleSearch := true; temperature := Some (Finite (1 # 5));
                  responseMimeType := None; responseSchema := None |} |}.

Definition scanMarketSector (env : Environment) (sectorName : jsstring)
  : M (list Stock) :=
  if negb (truthyString (Some (apiKey env))) then ret []
  else
    try_catch
      (response <- call env (scanRequest env sectorName) ;;
       ret (parseStockCSV (string_or (text response) [])))
      (fun error => ret []).

Definition snapshotPrompt : jsstring :=
  join NEWLINE
    [ [];
      lit "    Fetch the latest real-time stock market data for these key Nifty 50 stocks:";
      lit "    Reliance, TCS, HDFC Bank, Infosys, ITC, Tata Motors, L&T, SBI.";
      [];
      lit "    For each, find: Price, Change %, Market Cap, Sector.";
      lit "    ";
      lit "    Output STRICTLY in CSV format (NO markdown, NO headers).";
      lit "    Format: SYMBOL,NAME,SECTOR,PRICE,CHANGE_PERCENT,MARKET_CAP";
      lit "  " ].

Definition snapshotRequest : Request :=
  {| model := MODEL;
     contents := snapshotPrompt;
     config := {| googleSearch := true; temperature := None;
                  responseMimeType := None; responseSchema := None |} |}.

Definition fetchMarketSnapshot (env : Environment) : M (list Stock) :=
  if negb (truthyString (Some (apiKey env))) then ret []
  else
    try_catch
      (response <- call env snapshotRequest ;;
       ret (parseStockCSV (string_or (text response) [])))
      (fun error => ret []).

(** *** The two-phase analysis *)

Definition priceRequest (env : Environment) (currentPrice : number) : jsstring :=
  if isZero currentPrice
  then lit "Find the latest real-time market price in INR."
  else lit "Current Price reference is " ++ [RUPEE]
       ++ numberToString env currentPrice ++ lit ".".

Definition searchPrompt (env : Environment) (symbol : jsstring)
    (currentPrice : number) (sector : jsstring) : jsstring :=
  join NEWLINE
    [ [];
      lit "    Act as a senior equity analyst. Gather the latest live data for " ++ symbol ++ lit " (" ++ sector ++ lit ") needed for a valuation report.";
      lit "    Current Date: " ++ today env ++ lit ".";
      lit "    ";
      lit "    Find the following:";
      lit "    1. " ++ priceRequest env currentPrice;
      lit "    2. Latest News & Headlines (for Sentiment Analysis).";
      lit "    3. Current 10-year Indian Government Bond Yield.";
      lit "    4. Sector P/E and P/B ratios for " ++ sector ++ lit " in India.";
      lit "    5. Analyst consensus or price targets if available.";
      lit "  " ].

Definition gatherRequest (env : Environment) (symbol : jsstring)
    (currentPrice : number) (sector : jsstring) : Request :=
  {| model := MODEL;
     contents := searchPrompt env symbol currentPrice sector;
     config := {| googleSearch := true; temperature := None;
                  responseMimeType := None; responseSchema := None |} |}.

Definition marketPrice (env : Environment) (currentPrice : number) : jsstring :=
  if gtZero currentPrice
  then lit "Market Price: " ++ [RUPEE] ++ numberToString env currentPrice
  else lit "Market Price: Unknown (EXTRACT FROM CONTEXT)".

Definition analysisPrompt (env : Environment) (symbol : jsstring)
    (currentPrice : number) (searchContext : jsstring) : jsstring :=
  join NEWLINE
    [ [];
      lit "    Perform a comprehensive financial valuation and sentiment analysis for: " ++ symbol ++ lit ".";
      lit "    " ++ marketPrice env currentPrice;
      lit "    ";
      lit "    Use the following gathered context for real-time data integration:";
      lit "    " ++ [DQUOTE] ++ [DQUOTE] ++ [DQUOTE];
      lit "    " ++ searchContext;
      lit "    " ++ [DQUOTE] ++ [DQUOTE] ++ [DQUOTE];
      [];
      lit "    Tasks:";
      lit "    1. **Identify Data**:";
      lit "       - Extract the full official Company Name.";
      lit "       - Extract the Current Market Price from the context. If multiple prices exist, use the most recent/live one.";
      lit "    ";
      lit "    2. **Valuation**:";
      lit "       - Calculate DCF (use reasonable growth assumptions based on context).";
      lit "       - Relative Valuation (compare vs sector peers found in context).";
      lit "       - Graham Number.";
      lit "       - Determine Intrinsic Value.";
      lit "    ";
      lit "    3. **Sentiment**:";
      lit "       - Analyze the news in the context.";
      lit "       - Assign sentiment score (-100 to 100).";
      lit "    ";
      lit "    4. **Output**:";
      lit "       - Strictly adhere to the JSON schema.";
      lit "  " ].

Definition extractRequest (env : Environment) (symbol : jsstring)
    (currentPrice : number) (searchContext : jsstring) : Request :=
  {| model := MODEL;
     contents := analysisPrompt env symbol currentPrice searchContext;
     config := {| googleSearch := false; temperature := Some (Finite (3 # 10));
                  responseMimeType := Some (lit "application/json");
                  responseSchema := Some analysisSchema |} |}.

Definition NO_SEARCH_DATA : jsstring := lit "No specific search data found.".

(** The context the extract phase gets when the gather phase failed. *)
Definition SEARCH_UNAVAILABLE : jsstring :=
  lit "Search unavailable. Use internal knowledge base.".

(** [chunks.map(chunk => chunk.web).filter(web => !!web)
          .map(web => ({ title: web.title || 'Source', uri: web.uri || '#' }))] *)
Definition extractSources (chunks : list GroundingChunk) : list Source :=
  map (fun w => {| title := string_or (web_title w) (lit "Source");
                   uri := string_or (web_uri w) (lit "#") |})
      (flat_map (fun chunk => match web chunk with
                              | Some w => [w]
                              | None => []
                              end) chunks).

Definition chunks_or_empty (c : option (list GroundingChunk))
  : list GroundingChunk :=
  match c with Some l => l | None => [] end.

(** [analysis.sources = sources] *)
Definition set_sources (a : StockAnalysis) (s : list Source) : StockAnalysis :=
  {| companyName := companyName a;
     currentPrice := currentPrice a;
     intrinsicValue := intrinsicValue a;
     marginOfSafety := marginOfSafety a;
     recommendation := recommendation a;
     valuationMetrics := valuationMetrics a;
     sentimentScore := sentimentScore a;
     sentimentLabel := sentimentLabel a;
     sentimentSummary := sentimentSummary a;
     sectorMomentum := sectorMomentum a;
     strengths := strengths a;
     risks := risks a;
     sources := s |}.

(** Step 1: the search-grounded call; a failure is swallowed and leaves the
    placeholder context and no source. *)
Definition gatherPhase (env : Environment) (symbol : jsstring)
    (currentPrice : number) (sector : jsstring)
  : M (jsstring * list Source) :=
  try_catch
    (searchResponse <- call env (gatherRequest env symbol currentPrice sector) ;;
     ret (string_or (text searchResponse) NO_SEARCH_DATA,
          extractSources (chunks_or_empty (groundingChunks searchResponse))))
    (fun err => ret (SEARCH_UNAVAILABLE, [])).

(** The TypeError of [analysis.sources = sources] when [analysis] is not
    an object: the assignment throws on [null], and on a primitive too, the
    file being a module and so strict code. *)
Definition NOT_AN_OBJECT : Error :=
  MkError (lit "Cannot set properties of null (setting 'sources')").

(** Step 2: the schema-constrained call; every failure is rethrown. *)
Definition extractPhase (env : Environment) (symbol : jsstring)
    (currentPrice : number) (searchContext : jsstring) (sources : list Source)
  : M StockAnalysis :=
  try_catch
    (response <- call env (extractRequest env symbol currentPrice searchContext) ;;
     if negb (truthyString (text response))
     then throw (MkError (lit "No response from Gemini"))
     else
       match JSON_parse env (orEmpty (text response)) with
       | Throw e => throw e
       | Return ParsedPrimitive => throw NOT_AN_OBJECT
       | Return (ParsedObject analysis) => ret (set_sources analysis sources)
       end)
    (fun error => throw error).

Definition analyzeStockWithGemini (env : Environment) (symbol : jsstring)
    (currentPrice : number) (sector : jsstring) : M StockAnalysis :=
  if negb (truthyString (Some (apiKey env)))
  then throw (MkError (lit "API Key is missing"))
  else
    gathered <- gatherPhase env symbol currentPrice sector ;;
    extractPhase env symbol currentPrice (fst gathered) (snd gathered).

(* ================================================================== *)
(** ** Array.prototype.sort *)
(* ================================================================== *)

(** SortCompare of ECMA-262 for defined elements: the number the comparator
    returns, [NaN] read as [+0]. *)
Definition SortCompare {A} (comparefn : A -> A -> number) (x y : A) : number :=
  let v := comparefn x y in
  if isNaN v then zero else v.

(** ECMA-262 asks [sort] to be stable and, for a consistent comparator, to
    order the array by it; these two fix the result (see
    [stable_sorted_unique] below), so any conforming algorithm returns the
    list computed here by stable insertion: an element moves right only past
    the elements it compares strictly greater than. *)
Fixpoint sort_insert {A} (comparefn : A -> A -> number) (x : A) (l : list A)
  : list A :=
  match l with
  | [] => [x]
  | y :: l' =>
      if gtZero (SortCompare comparefn x y)
      then y :: sort_insert comparefn x l'
      else x :: l
  end.

Definition Array_sort {A} (comparefn : A -> A -> number) (l : list A) : list A :=
  fold_right (sort_insert comparefn) [] l.

(* ================================================================== *)
(** ** The application component (App) *)
(* ================================================================== *)

Definition initialState : DashboardState :=
  {| stocks := []; selectedStock := None; analysis := None; loading := true;
     view := dashboard; scanMode := false; progress := zero;
     scanStatus := [] |}.

Definition initialWorld : World :=
  {| state := initialState; commits := []; alerts := []; requests := [];
     crashed := None |}.

Definition loadMarketData (env : Environment) : M unit :=
  setState (fun prev =>
    {| stocks := stocks prev; selectedStock := selectedStock prev;
       analysis := analysis prev; loading := true; view := view prev;
       scanMode := false; progress := zero;
       scanStatus := lit "Fetching Snapshot..." |}) ;;
  try_catch
    (stocks' <- fetchMarketSnapshot env ;;
     setState (fun prev =>
       {| stocks := stocks'; selectedStock := selectedStock prev;
          analysis := analysis prev; loading := false; view := view prev;
          scanMode := scanMode prev; progress := progress prev;
          scanStatus := scanStatus prev |}))
    (fun e =>
     setState (fun prev =>
       {| stocks := stocks prev; selectedStock := selectedStock prev;
          analysis := analysis prev; loading := false; view := view prev;
          scanMode := scanMode prev; progress := progress prev;
          scanStatus := scanStatus prev |})).

Definition sectors : list jsstring :=
  [ lit "Financial Services & Banking";
    lit "IT & Technology";
    lit "Automobile & Consumer Goods";
    lit "Energy, Power & Infrastructure";
    lit "Pharma & Healthcare" ].

(** [Math.round((i / sectors.length) * 100)] *)
Definition progressAt (i : nat) : number :=
  Math_round (mul (div (ofNat i) (ofNat (List.length sectors))) (ofNat 100)).

(** [s.score || 0] *)
Definition scoreOrZero (s : Stock) : number :=
  match score s with
  | Some x => num_or x zero
  | None => zero
  end.

(** [(a, b) => (b.score || 0) - (a.score || 0)] *)
Definition byScoreDescending (a b : Stock) : number :=
  sub (scoreOrZero b) (scoreOrZero a).

(** The [for] loop of the scan from index [i] on: [rest] is what is left of
    [sectors], [allPicks] the accumulator. *)
Fixpoint scanLoop (env : Environment) (i : nat) (rest : list jsstring)
    (allPicks : list Stock) : M (list Stock) :=
  match rest with
  | [] => ret allPicks
  | sector :: rest' =>
      setState (fun prev =>
        {| stocks := stocks prev; selectedStock := selectedStock prev;
           analysis := analysis prev; loading := loading prev;
           view := view prev; scanMode := scanMode prev;
           progress := progressAt i;
           scanStatus := lit "Analyzing " ++ sector ++ lit "..." |}) ;;
      sectorPicks <- scanMarketSector env sector ;;
      scanLoop env (S i) rest' (allPicks ++ sectorPicks)
  end.

Definition SCAN_FAILED : jsstring := lit "Scan failed. Please try again.".

Definition handleScanForValue (env : Environment) : M unit :=
  setState (fun prev =>
    {| stocks := []; selectedStock := selectedStock prev;
       analysis := analysis prev; loading := true; view := view prev;
       scanMode := true; progress := zero;
       scanStatus := lit "Initializing Nifty 200 Scan..." |}) ;;
  try_catch
    (allPicks <- scanLoop env 0 sectors [] ;;
     let sorted := Array_sort byScoreDescending allPicks in
     let topPicks := firstn 20 sorted in
     setState (fun prev =>
       {| stocks := topPicks; selectedStock := selectedStock prev;
          analysis := analysis prev; loading := false; view := view prev;
          scanMode := scanMode prev; progress := ofNat 100;
          scanStatus := lit "Scan Complete" |}))
    (fun e =>
     alert SCAN_FAILED ;;
     setState (fun prev =>
       {| stocks := stocks prev; selectedStock := selectedStock prev;
          analysis := analysis prev; loading := false; view := view prev;
          scanMode := false; progress := progress prev;
          scanStatus := scanStatus prev |})).

Definition UNKNOWN : jsstring := lit "Unknown".
Definition ANALYSED : jsstring := lit "Analysed".
Definition ANALYZE_FAILED : jsstring :=
  lit "Failed to analyze stock. Please check your API key.".

(** The updater of the success commit of [analyzeStock].  With no selected
    stock, [prev.selectedStock!.sector] is read whatever the analysis holds,
    and reading a property of [null] throws. *)
Definition reconcile (analysis' : StockAnalysis) (price' : number)
    (prev : DashboardState) : Result DashboardState :=
  match selectedStock prev with
  | None => Throw (MkError (lit "Cannot read properties of null"))
  | Some sel =>
      Return
        {| stocks := stocks prev;
           selectedStock :=
             Some {| symbol := symbol sel;
                     name := if truthyString (Some (companyName analysis'))
                             then companyName analysis' else name sel;
                     sector := if jsstring_eqb (sector sel) UNKNOWN
                               then ANALYSED else sector sel;
                     price := num_or (currentPrice analysis')
                                     (num_or price' (price sel));
                     changePercent := changePercent sel;
                     marketCap := marketCap sel;
                     reason := reason sel;
                     score := score sel |};
           analysis := Some analysis';
           loading := false;
           view := view prev;
           scanMode := scanMode prev;
           progress := progress prev;
           scanStatus := scanStatus prev |}
  end.

(** [analyzeStock] up to its [await]. *)
Definition analyzeStock_begin : M unit :=
  setState (fun prev =>
    {| stocks := stocks prev; selectedStock := selectedStock prev;
       analysis := analysis prev; loading := true; view := detail;
       scanMode := scanMode prev; progress := progress prev;
       scanStatus := scanStatus prev |}).

(** The [catch] block of [analyzeStock]. *)
Definition analyzeStock_catch (error : Error) : M unit :=
  setState (fun prev =>
    {| stocks := stocks prev; selectedStock := selectedStock prev;
       analysis := analysis prev; loading := false; view := dashboard;
       scanMode := scanMode prev; progress := progress prev;
       scanStatus := scanStatus prev |}) ;;
  alert ANALYZE_FAILED.

Definition analyzeStock (env : Environment) (symbol' : jsstring)
    (price' : number) (sector' : jsstring) : M unit :=
  analyzeStock_begin ;;
  try_catch
    (analysis' <- analyzeStockWithGemini env symbol' price' sector' ;;
     setStateWith (reconcile analysis' price'))
    analyzeStock_catch.

Definition handleStockClick (env : Environment) (stock : Stock) : M unit :=
  setState (fun prev =>
    {| stocks := stocks prev; selectedStock := Some stock;
       analysis := analysis prev; loading := loading prev; view := view prev;
       scanMode := scanMode prev; progress := progress prev;
       scanStatus := scanStatus prev |}) ;;
  analyzeStock env (symbol stock) (price stock) (sector stock).

(** The temporary stock of [handleSearchSelect]. *)
Definition tempStock (ticker : jsstring) : Stock :=
  {| symbol := ticker; name := ticker; sector := UNKNOWN; price := zero;
     changePercent := zero; marketCap := []; reason := None; score := None |}.

(** The search box has a state of its own, which the handler also clears;
    it is not part of [DashboardState]. *)
Definition handleSearchSelect (env : Environment) (ticker : jsstring) : M unit :=
  setState (fun prev =>
    {| stocks := stocks prev; selectedStock := Some (tempStock ticker);
       analysis := analysis prev; loading := loading prev; view := view prev;
       scanMode := scanMode prev; progress := progress prev;
       scanStatus := scanStatus prev |}) ;;
  analyzeStock env ticker zero UNKNOWN.

Definition handleBack : M unit :=
  setState (fun prev =>
    {| stocks := stocks prev; selectedStock := None; analysis := None;
       loading := loading prev; view := dashboard;
       scanMode := scanMode prev; progress := progress prev;
       scanStatus := scanStatus prev |}).

(** *** Overlapping operations

    A handler runs up to its [await]; what follows the [await] runs when
    the awaited promise settles, and other handlers may run in between.
    The search box is rendered whenever the view is the dashboard, and the
    logo that calls [handleBack] always, so an analysis can be begun while
    another is pending.  A [Turn] is one uninterrupted piece of a handler;
    the turn that resumes [analyzeStock] carries the known price of its call
    and what [analyzeStockWithGemini] settled with. *)
Inductive Turn :=
| SearchSelectBegins (ticker : jsstring)
| StockClickBegins (stock : Stock)
| AnalysisSettles (price' : number) (outcome : Result StockAnalysis)
| BackClicked.

Definition runTurn (t : Turn) : M unit :=
  match t with
  | SearchSelectBegins ticker =>
      setState (fun prev =>
        {| stocks := stocks prev; selectedStock := Some (tempStock ticker);
           analysis := analysis prev; loading := loading prev;
           view := view prev; scanMode := scanMode prev;
           progress := progress prev; scanStatus := scanStatus prev |}) ;;
      analyzeStock_begin
  | StockClickBegins stock =>
      setState (fun prev =>
        {| stocks := stocks prev; selectedStock := Some stock;
           analysis := analysis prev; loading := loading prev;
           view := view prev; scanMode := scanMode prev;
           progress := progress prev; scanStatus := scanStatus prev |}) ;;
      analyzeStock_begin
  | AnalysisSettles price' (Return analysis') =>
      setStateWith (reconcile analysis' price')
  | AnalysisSettles _ (Throw error) => analyzeStock_catch error
  | BackClicked => handleBack
  end.

Definition runTurns (ts : list Turn) (w : World) : World :=
  fold_left (fun w' t => snd (runTurn t w')) ts w.

(* ================================================================== *)
(** ** What a run asks of the service, and what it gets *)
(* ================================================================== *)

(** The three service functions read and extend the list of requests and
    nothing else of the world.  The definitions below give, for a list of
    requests already sent, what a call returns and the list it leaves; the
    lemmas [scanMarketSector_run], [gatherPhase_run] and
    [analyzeStockWithGemini_run] tie them to the functions above. *)

Definition scanQuery (env : Environment) (sectorName : jsstring)
    (sent : list Request) : list Stock * list Request :=
  if negb (truthyString (Some (apiKey env))) then ([], sent)
  else
    match generateContent env sent (scanRequest env sectorName) with
    | Rejected _ => ([], sent ++ [scanRequest env sectorName])
    | Resolved r =>
        (parseStockCSV (string_or (text r) []),
         sent ++ [scanRequest env sectorName])
    end.

(** The result lists of the scan queries of [rest], asked in that order. *)
Fixpoint sectorResults (env : Environment) (rest : list jsstring)
    (sent : list Request) : list (list Stock) :=
  match rest with
  | [] => []
  | sector :: rest' =>
      fst (scanQuery env sector sent)
      :: sectorResults env rest' (snd (scanQuery env sector sent))
  end.

(** The context and the sources the gather phase ends with. *)
Definition gathered (env : Environment) (symbol' : jsstring) (price' : number)
    (sector' : jsstring) (sent : list Request) : jsstring * list Source :=
  match generateContent env sent (gatherRequest env symbol' price' sector') with
  | Rejected _ => (SEARCH_UNAVAILABLE, [])
  | Resolved r =>
      (string_or (text r) NO_SEARCH_DATA,
       extractSources (chunks_or_empty (groundingChunks r)))
  end.

(** The request of the extract phase, and how the service settles it. *)
Definition extractRequestOf (env : Environment) (symbol' : jsstring)
    (price' : number) (sector' : jsstring) (sent : list Request) : Request :=
  extractRequest env symbol' price'
    (fst (gathered env symbol' price' sector' sent)).

Definition extractOutcome (env : Environment) (symbol' : jsstring)
    (price' : number) (sector' : jsstring) (sent : list Request) : Outcome :=
  generateContent env
    (sent ++ [gatherRequest env symbol' price' sector'])
    (extractRequestOf env symbol' price' sector' sent).

(** The extract phase fails: the call is rejected, the answer has no text,
    the text is not JSON, or it is JSON for [null] or a primitive. *)
Definition extractFails (env : Environment) (o : Outcome) : bool :=
  match o with
  | Rejected _ => true
  | Resolved r =>
      negb (truthyString (text r))
      || match JSON_parse env (orEmpty (text r)) with
         | Throw _ => true
         | Return ParsedPrimitive => true
         | Return (ParsedObject _) => false
         end
  end.

(** What [extractPhase] returns, from how its call settles. *)
Definition extractResult (env : Environment) (o : Outcome)
    (sources' : list Source) : Result StockAnalysis :=
  match o with
  | Rejected e => Throw e
  | Resolved r =>
      if negb (truthyString (text r))
      then Throw (MkError (lit "No response from Gemini"))
      else match JSON_parse env (orEmpty (text r)) with
           | Throw e => Throw e
           | Return ParsedPrimitive => Throw NOT_AN_OBJECT
           | Return (ParsedObject a) => Return (set_sources a sources')
           end
  end.

(** The service functions leave the component alone. *)
Definition sameComponent (w w' : World) : Prop :=
  state w' = state w /\ commits w' = commits w
  /\ alerts w' = alerts w /\ crashed w' = crashed w.

(** A state that differs from another in its progress and status text at
    most. *)
Definition sameButProgress (a b : DashboardState) : Prop :=
  stocks b = stocks a /\ selectedStock b = selectedStock a
  /\ analysis b = analysis a /\ loading b = loading a
  /\ view b = view a /\ scanMode b = scanMode a.

(** [x] ties with [k] for an order [R]. *)
Definition ties {A} (R : A -> A -> bool) (k x : A) : bool :=
  R k x && R x k.

(** [a] may stand before [b] in the list sorted by descending score. *)
Definition scoreNotBelow (a b : Stock) : bool :=
  num_leb (scoreOrZero b) (scoreOrZero a).

(** Two stocks have the same score for the sort. *)
Definition sameScore (k s : Stock) : bool := ties scoreNotBelow k s.

(** The order of the numbers, written without the comparison of the code:
    minus infinity is below every number, plus infinity above every number,
    two finite values compare as rationals; [NaN] compares with nothing. *)
Inductive numberLe : number -> number -> Prop :=
| numberLe_below (y : number) :
    isNaN y = false -> numberLe (Infinity true) y
| numberLe_above (x : number) :
    isNaN x = false -> numberLe x (Infinity false)
| numberLe_finite (p q : Q) :
    (p <= q)%Q -> numberLe (Finite p) (Finite q).

(* ================================================================== *)
(** ** Sample environments *)
(* ================================================================== *)

(** A service that answers the [n]-th request with the [n]-th outcome of a
    script, and rejects once the script is over. *)
Definition scripted (script : list Outcome) (sent : list Request)
    (request : Request) : Outcome :=
  nth (List.length sent) script (Rejected (MkError (lit "offline"))).

Definition answer (t : jsstring) : Outcome :=
  Resolved {| text := Some t; groundingChunks := None |}.

Definition sampleAnalysis (company : jsstring) (p : number) : StockAnalysis :=
  {| companyName := company;
     currentPrice := p;
     intrinsicValue := Finite 120;
     marginOfSafety := Finite 20;
     recommendation := BUY;
     valuationMetrics :=
       [ {| method := GRAHAM; value := Finite 120; details := lit "EPS x BVPS" |} ];
     sentimentScore := Finite 10;
     sentimentLabel := NEUTRAL;
     sentimentSummary := lit "quiet";
     sectorMomentum := lit "flat";
     strengths := [lit "cash"];
     risks := [lit "rates"];
     sources := [] |}.

(** A [JSON.parse] that knows two texts. *)
Definition sampleParse (t : jsstring) : Result Parsed :=
  if jsstring_eqb t (lit "{tcs}")
  then Return (ParsedObject
                 (sampleAnalysis (lit "Tata Consultancy Services") (Finite 0)))
  else if jsstring_eqb t (lit "null")
       then Return ParsedPrimitive
       else Throw (MkError (lit "Unexpected token")).

Definition sampleEnv (key : jsstring) (script : list Outcome) : Environment :=
  {| apiKey := key;
     today := lit "Tue Nov 03 2026";
     numberToString := fun _ => lit "0";
     generateContent := scripted script;
     JSON_parse := sampleParse |}.

(* ================================================================== *)
(** ** Binary64 replay of the progress arithmetic *)
(* ================================================================== *)

(** The progress percentage is the one place where the dashboard computes
    with fractions.  It is replayed here in IEEE 754 binary64, with the
    operations of the standard library's [SpecFloat], to check that the
    exact arithmetic of [JsNumber] and the rounded one agree on it. *)
Module Binary64.

Definition prec : Z := 53.
Definition emax : Z := 1024.

Definition ofZ (z : Z) : spec_float := binary_normalize prec emax z 0 false.

(** [Math.round]: the floor of [x + 1/2], computed on the mantissa and the
    exponent; [None] for what is not finite. *)
Definition Math_round (x : spec_float) : option Z :=
  match x with
  | S754_zero _ => Some 0%Z
  | S754_finite s m e =>
      let v := if s then Z.neg m else Z.pos m in
      Some (if (0 <=? e)%Z then v * 2 ^ e
            else (2 * v + 2 ^ (- e)) / 2 ^ (1 - e))%Z
  | _ => None
  end.

(** [Math.round((i / sectors.length) * 100)] *)
Definition progressAt (i : nat) : option Z :=
  Math_round
    (SFmul prec emax
       (SFdiv prec emax (ofZ (Z.of_nat i)) (ofZ (Z.of_nat (List.length sectors))))
       (ofZ 100)).

End Binary64.

(* ================================================================== *)
(** ** The ticker universe and the search box (App, autocomplete) *)
(* ================================================================== *)

Definition NIFTY_200_TICKERS : list jsstring :=
  [
    lit "RELIANCE"; lit "TCS"; lit "HDFCBANK"; lit "INFY"; lit "ICICIBANK";
    lit "HINDUNILVR"; lit "ITC"; lit "SBIN"; lit "BHARTIARTL"; lit "LICI";
    lit "LT"; lit "BAJFINANCE"; lit "HCLTECH"; lit "KOTAKBANK"; lit "AXISBANK";
    lit "ASIANPAINT"; lit "TITAN"; lit "MARUTI"; lit "SUNPHARMA"; lit "ULTRACEMCO";
    lit "NTPC"; lit "TATAMOTORS"; lit "ADANIENT"; lit "ONGC"; lit "POWERGRID";
    lit "TATASTEEL"; lit "M&M"; lit "ADANIPORTS"; lit "COALINDIA"; lit "BAJAJFINSV";
    lit "SIEMENS"; lit "DMART"; lit "NESTLEIND"; lit "JSWSTEEL"; lit "ADANIGREEN";
    lit "GRASIM"; lit "PIDILITIND"; lit "ZOMATO"; lit "LTIM"; lit "DLF";
    lit "TRENT"; lit "VBL"; lit "HAL"; lit "IOC"; lit "BEL";
    lit "HINDALCO"; lit "EICHERMOT"; lit "INDUSINDBK"; lit "GODREJCP"; lit "CIPLA";
    lit "BPCL"; lit "BRITANNIA"; lit "TECHM"; lit "WIPRO"; lit "ADANIPOWER";
    lit "TATACONSUM"; lit "DRREDDY"; lit "ABB"; lit "BANKBARODA"; lit "AMBUJACEM";
    lit "VEDL"; lit "INDIGO"; lit "TVSMOTOR"; lit "GAIL"; lit "DIVISLAB";
    lit "HAVELLS"; lit "PNB"; lit "APOLLOHOSP"; lit "CHOLAFIN"; lit "SHREECEM";
    lit "CANBK"; lit "DABUR"; lit "JIOFIN"; lit "BAJAJ-AUTO"; lit "BOSCHLTD";
    lit "TATACHEM"; lit "SRF"; lit "MUTHOOTFIN"; lit "BERGEPAINT"; lit "MARICO";
    lit "NAUKRI"; lit "PIIND"; lit "UPL"; lit "SBICARD"; lit "ICICIGI";
    lit "ICICIPRULI"; lit "TIINDIA"; lit "HEROMOTOCO"; lit "ASHOKLEY"; lit "ASTRAL";
    lit "ALKEM"; lit "PERSISTENT"; lit "POLYCAB"; lit "MRF"; lit "IRCTC";
    lit "LTTS"; lit "PAGEIND"; lit "ACC"; lit "COLPAL"; lit "PETRONET" ].

(** [hay.includes(needle)] for a needle of any length. *)
Fixpoint includesString (needle hay : jsstring) : bool :=
  match isPrefix needle hay with
  | Some _ => true
  | None =>
      match hay with
      | [] => false
      | _ :: hay' => includesString needle hay'
      end
  end.

(** The effect that follows [searchQuery]: the suggestions shown under the
    search box.  [toLowerCase] is the method of the language, with its table
    of Unicode case mappings; it is taken as it comes. *)
Definition suggestions (toLowerCase : jsstring -> jsstring)
    (searchQuery : jsstring) : list jsstring :=
  if 1 <? List.length searchQuery
  then firstn 5
         (filter (fun ticker =>
                    includesString (toLowerCase searchQuery) (toLowerCase ticker))
                 NIFTY_200_TICKERS)
  else [].

(** What [toLowerCase] does to a string of ASCII characters. *)
Definition asciiLower (s : jsstring) : jsstring :=
  map (fun c => if ((65 <=? c) && (c <=? 90))%N then (c + 32)%N else c) s.

(* ================================================================== *)
(** ** What is on screen, and what the user can trigger (App, render) *)
(* ================================================================== *)

(** [state.loading && state.view === 'dashboard'] *)
Definition isLoadingList (st : DashboardState) : bool :=
  loading st && match view st with dashboard => true | detail => false end.

(** The three branches of [main]. *)
Inductive Screen :=
| DetailLoader
| AnalysisScreen (stock : Stock) (analysis' : StockAnalysis)
| DashboardScreen.

Definition screen (st : DashboardState) : Screen :=
  if loading st && match view st with detail => true | dashboard => false end
  then DetailLoader
  else
    match view st, selectedStock st, analysis st with
    | detail, Some stock, Some analysis' => AnalysisScreen stock analysis'
    | _, _, _ => DashboardScreen
    end.

(** The handlers the page can call. *)
Inductive Action :=
| Refresh
| Scan
| ClickStock (stock : Stock)
| SearchSelect (ticker : jsstring)
| Back.

(** When the control that calls a handler is there to be used:
    - the refresh button and the search box are rendered when the view is
      the dashboard, and a suggestion is one of [suggestions] for the query
      typed;
    - the scan button is on the dashboard screen and disabled while loading;
    - a row of the table is on the dashboard screen, when the list is not
      loading, and is a stock of the list;
    - the logo, which goes back, is always there. *)
Definition enabled (toLowerCase : jsstring -> jsstring) (st : DashboardState)
    (a : Action) : Prop :=
  match a with
  | Refresh => view st = dashboard
  | Scan => screen st = DashboardScreen /\ loading st = false
  | ClickStock stock =>
      screen st = DashboardScreen /\ isLoadingList st = false
      /\ In stock (stocks st)
  | SearchSelect ticker =>
      view st = dashboard
      /\ exists searchQuery, In ticker (suggestions toLowerCase searchQuery)
  | Back => True
  end.

Definition perform (env : Environment) (a : Action) : M unit :=
  match a with
  | Refresh => loadMarketData env
  | Scan => handleScanForValue env
  | ClickStock stock => handleStockClick env stock
  | SearchSelect ticker => handleSearchSelect env ticker
  | Back => handleBack
  end.

(** The worlds reached when every handler runs to its end before the next
    one is called.  The component mounts in [initialWorld]; the effect that
    loads the market data on mount is the handler of the refresh button. *)
Inductive Reachable (env : Environment) (toLowerCase : jsstring -> jsstring)
  : World -> Prop :=
| Reachable_mount : Reachable env toLowerCase initialWorld
| Reachable_perform (w : World) (a : Action) :
    Reachable env toLowerCase w ->
    enabled toLowerCase (state w) a ->
    Reachable env toLowerCase (snd (perform env a w)).

(** What holds between two handlers run one after the other. *)
Definition atRest (w : World) : Prop :=
  crashed w = None
  /\ (view (state w) = dashboard -> analysis (state w) = None)
  /\ (view (state w) = detail ->
        loading (state w) = false
        /\ selectedStock (state w) <> None
        /\ analysis (state w) <> None).

(* ================================================================== *)
(** ** The analysis view (src/components/AnalysisView.tsx) *)
(* ================================================================== *)

(** The label of a source link:
    [title.length > 30 ? title.substring(0, 30) + '...' : title] *)
Definition sourceLabel (title' : jsstring) : jsstring :=
  if 30 <? List.length title' then firstn 30 title' ++ lit "..." else title'.

(* ================================================================== *)
(** ** Fields as the parser leaves them *)
(* ================================================================== *)

(** A text field of a parsed stock: no comma, no line feed, no quote, and
    no white space at either end. *)
Definition cleanField (f : jsstring) : Prop :=
  (forall c, In c f -> c <> COMMA /\ c <> NEWLINE /\ isQuote c = false)
  /\ startsClean f
  /\ startsClean (rev f).

(** A stock as the parser makes them, for what the list shows of it. *)
Definition wellFormedStock (s : Stock) : Prop :=
  isNaN (price s) = false
  /\ isNaN (changePercent s) = false
  /\ cleanField (symbol s)
  /\ cleanField (name s)
  /\ cleanField (sector s).

(* ================================================================== *)
(** * Properties *)
(* ================================================================== *)

(** ** Sanity checks of the builtins on literals *)

Example parseFloat_ex1 : parseFloat (lit "10.5") = Finite (21 # 2).
Proof. reflexivity. Qed.

Example parseFloat_ex2 : parseFloat (lit " -1.2e1x") = Finite (-12 # 1).
Proof. reflexivity. Qed.

Example parseFloat_ex3 : parseFloat (lit "1T") = Finite 1.
Proof. reflexivity. Qed.

Example parseFloat_ex4 : parseFloat (lit ".") = NaN.
Proof. reflexivity. Qed.

Example parseFloat_ex5 : parseFloat (lit "5.e") = Finite 5.
Proof. reflexivity. Qed.

Example parseInt_ex1 : parseInt (lit "87") = Finite 87.
Proof. reflexivity. Qed.

Example parseInt_ex2 : parseInt (lit "Good pick") = NaN.
Proof. reflexivity. Qed.

Example parseInt_ex3 : parseInt (lit "0x1F") = Finite 31.
Proof. reflexivity. Qed.

Example parseInt_ex4 : parseInt (lit "0x") = NaN.
Proof. reflexivity. Qed.

Example parseInt_ex5 : parseInt (lit "  -12.7") = Finite (-12).
Proof. reflexivity. Qed.

Example parse_six_fields_ex :
  map (fun s => (score s, reason s)) (parseStockCSV (lit "X,Y,Z,10.5,1.2,1T"))
  = [(Some (Finite 0), None)].
Proof. reflexivity. Qed.

Example parse_legacy_reason_ex :
  map (fun s => (score s, reason s))
      (parseStockCSV (lit "X,Y,Z,10.5,1.2,1T,Good pick"))
  = [(Some NaN, Some (lit "Good pick"))].
Proof. reflexivity. Qed.

Example parse_explicit_score_ex :
  map (fun s => (score s, reason s))
      (parseStockCSV (lit "X,Y,Z,10.5,1.2,1T,87,Strong fundamentals"))
  = [(Some (Finite 87), Some (lit "Strong fundamentals"))].
Proof. reflexivity. Qed.

Example parse_prompt_line_ex :
  parseStockCSV
    (lit "HDFCBANK,HDFC Bank,Financials,1450.00,-0.5,11.5T,92,Sector leader.")
  = [ {| symbol := lit "HDFCBANK"; name := lit "HDFC Bank";
         sector := lit "Financials"; price := Finite 1450;
         changePercent := Finite (-1 # 2); marketCap := lit "11.5T";
         reason := Some (lit "Sector leader."); score := Some (Finite 92) |} ].
Proof. reflexivity. Qed.

Example progress_binary64_ex :
  map Binary64.progressAt (seq 0 5) = [Some 0; Some 20; Some 40; Some 60; Some 80]%Z.
Proof. vm_compute. reflexivity. Qed.

Example progress_exact_ex :
  map progressAt (seq 0 5) = map ofZ [0; 20; 40; 60; 80]%Z.
Proof. vm_compute. reflexivity. Qed.

(* ================================================================== *)
(** ** Strings: split, join and trim *)
(* ================================================================== *)

Lemma split_not_nil (sep : char16) (s : jsstring) : split sep s <> [].
Proof.
  destruct s as [|c s]; simpl; [discriminate|].
  destruct (N.eqb c sep); [discriminate|].
  destruct (split sep s); discriminate.
Qed.

Lemma split_no_separator (sep : char16) (s : jsstring) :
  includes sep s = false -> split sep s = [s].
Proof.
  unfold includes. induction s as [|c s IH]; simpl; intros H; [reflexivity|].
  apply orb_false_iff in H. destruct H as [Hc Hs].
  rewrite N.eqb_sym, Hc. rewrite (IH Hs). reflexivity.
Qed.

Lemma split_app (sep : char16) (a b : jsstring) :
  split sep (a ++ sep :: b) = split sep a ++ split sep b.
Proof.
  induction a as [|c a IH]; simpl.
  - rewrite N.eqb_refl. reflexivity.
  - destruct (N.eqb c sep); [now rewrite IH|].
    rewrite IH. destruct (split sep a) as [|p ps] eqn:E.
    + now apply split_not_nil in E.
    + reflexivity.
Qed.

Lemma trimStart_decompose (s : jsstring) :
  exists pre, s = pre ++ trimStart s /\ forallb isWhiteSpace pre = true.
Proof.
  induction s as [|c s [pre [E H]]]; simpl.
  - exists []. split; reflexivity.
  - destruct (isWhiteSpace c) eqn:W.
    + exists (c :: pre). simpl. rewrite W, H. split; [now f_equal|reflexivity].
    + exists []. split; reflexivity.
Qed.

Lemma trimStart_startsClean (s : jsstring) : startsClean (trimStart s).
Proof.
  induction s as [|c s IH]; simpl; [exact I|].
  destruct (isWhiteSpace c) eqn:W; [exact IH|exact W].
Qed.

Lemma forallb_rev {A} (f : A -> bool) (l : list A) :
  forallb f (rev l) = forallb f l.
Proof.
  induction l as [|a l IH]; simpl; [reflexivity|].
  rewrite forallb_app, IH. simpl. rewrite andb_true_r. apply andb_comm.
Qed.

Lemma trimEnd_decompose (s : jsstring) :
  exists post, s = trimEnd s ++ post /\ forallb isWhiteSpace post = true.
Proof.
  unfold trimEnd. destruct (trimStart_decompose (rev s)) as [pre [E H]].
  exists (rev pre). split.
  - rewrite <- rev_app_distr, <- E. symmetry. apply rev_involutive.
  - now rewrite forallb_rev.
Qed.

Lemma trimEnd_keeps_start (s : jsstring) :
  startsClean s -> startsClean (trimEnd s).
Proof.
  intros H. destruct (trimEnd_decompose s) as [post [E _]].
  destruct (trimEnd s) as [|c t] eqn:T; [exact I|].
  rewrite E in H. exact H.
Qed.

Lemma trim_Stripped (raw : jsstring) : Stripped raw (trim (replace_quotes raw)).
Proof.
  unfold Stripped, trim, replace_quotes.
  set (q := filter (fun c => negb (isQuote c)) raw).
  destruct (trimStart_decompose q) as [pre [E1 H1]].
  destruct (trimEnd_decompose (trimStart q)) as [post [E2 H2]].
  exists pre, post. repeat split; try assumption.
  - rewrite <- E2. exact E1.
  - apply trimEnd_keeps_start, trimStart_startsClean.
  - unfold trimEnd. rewrite rev_involutive. apply trimStart_startsClean.
Qed.

Lemma clean_Some (p : jsstring) : clean (Some p) = trim (replace_quotes p).
Proof. destruct p; reflexivity. Qed.

Lemma trimStart_skips (pre r : jsstring) :
  forallb isWhiteSpace pre = true -> startsClean r ->
  trimStart (pre ++ r) = r.
Proof.
  induction pre as [|a pre IH]; simpl; intros H S.
  - destruct r as [|c r]; simpl in *; [reflexivity|now rewrite S].
  - apply andb_true_iff in H. destruct H as [Ha Hp]. rewrite Ha. now apply IH.
Qed.

(** A decomposition into white space, a clean core and white space is
    unique: [Stripped] determines its output. *)
Lemma Stripped_unique (raw out : jsstring) :
  Stripped raw out -> out = trim (replace_quotes raw).
Proof.
  intros (pre & post & E & Hpre & Hpost & S & R).
  unfold trim, replace_quotes. rewrite E.
  destruct out as [|c out].
  - simpl. rewrite <- (app_nil_r (pre ++ post)).
    rewrite trimStart_skips; [reflexivity| |exact I].
    rewrite forallb_app, Hpre, Hpost. reflexivity.
  - rewrite trimStart_skips; [|assumption|exact S].
    unfold trimEnd. rewrite rev_app_distr.
    rewrite trimStart_skips; [now rewrite rev_involutive| |assumption].
    now rewrite forallb_rev.
Qed.

(* ================================================================== *)
(** ** The parser, line by line *)
(* ================================================================== *)

Lemma parseStockCSV_step_app (stocks : list Stock) (line : jsstring) :
  parseStockCSV_step stocks line = stocks ++ parseLine line.
Proof.
  unfold parseLine, parseStockCSV_step.
  destruct (6 <=? List.length (split COMMA line)).
  - destruct (negb (isNaN (parseFloat (clean (nth_error (split COMMA line) 3))))).
    + reflexivity.
    + now rewrite app_nil_r.
  - now rewrite app_nil_r.
Qed.

Lemma parseStockCSV_loop (lines : list jsstring) (stocks : list Stock) :
  fold_left parseStockCSV_step lines stocks = stocks ++ flat_map parseLine lines.
Proof.
  revert stocks. induction lines as [|l lines IH]; intros stocks; simpl.
  - now rewrite app_nil_r.
  - rewrite IH, parseStockCSV_step_app, <- app_assoc. reflexivity.
Qed.

Lemma parseLine_no_comma (line : jsstring) :
  includes COMMA line = false -> parseLine line = [].
Proof.
  intros H. unfold parseLine, parseStockCSV_step.
  rewrite (split_no_separator _ _ H). reflexivity.
Qed.

Lemma flat_map_filter_comma (lines : list jsstring) :
  flat_map parseLine (filter (includes COMMA) lines) = flat_map parseLine lines.
Proof.
  induction lines as [|l lines IH]; simpl; [reflexivity|].
  destruct (includes COMMA l) eqn:E; simpl.
  - now rewrite IH.
  - now rewrite (parseLine_no_comma _ E), IH.
Qed.

Lemma parseStockCSV_lines (text : jsstring) :
  parseStockCSV text = flat_map parseLine (split NEWLINE text).
Proof.
  unfold parseStockCSV. rewrite parseStockCSV_loop. simpl.
  apply flat_map_filter_comma.
Qed.

Lemma parseLine_short (line : jsstring) :
  List.length (split COMMA line) < 6 -> parseLine line = [].
Proof.
  intros H. unfold parseLine, parseStockCSV_step.
  destruct (Nat.leb_spec 6 (List.length (split COMMA line))); [lia|reflexivity].
Qed.

Lemma parseLine_bad_price (line : jsstring) :
  isNaN (parseFloat (clean (nth_error (split COMMA line) 3))) = true ->
  parseLine line = [].
Proof.
  intros H. unfold parseLine, parseStockCSV_step.
  destruct (6 <=? List.length (split COMMA line)); [|reflexivity].
  cbv zeta. rewrite H. reflexivity.
Qed.

Lemma parseLine_at_most_one (line : jsstring) : List.length (parseLine line) <= 1.
Proof.
  unfold parseLine, parseStockCSV_step.
  destruct (6 <=? List.length (split COMMA line)); [|simpl; lia].
  destruct (negb (isNaN (parseFloat (clean (nth_error (split COMMA line) 3)))));
    simpl; lia.
Qed.

(** What a line that is kept contributes, field by field. *)
Lemma parseLine_kept (line : jsstring) (s : Stock) :
  parseLine line = [s] ->
  let parts := split COMMA line in
  6 <= List.length parts
  /\ isNaN (parseFloat (clean (nth_error parts 3))) = false
  /\ symbol s = clean (nth_error parts 0)
  /\ name s = clean (nth_error parts 1)
  /\ sector s = clean (nth_error parts 2)
  /\ price s = parseFloat (clean (nth_error parts 3))
  /\ changePercent s =
       (if isNaN (parseFloat (clean (nth_error parts 4))) then zero
        else parseFloat (clean (nth_error parts 4)))
  /\ marketCap s = clean (nth_error parts 5)
  /\ score s =
       Some (if truthyString (nth_error parts 6)
             then parseInt (clean (nth_error parts 6)) else zero)
  /\ reason s =
       (if truthyString (nth_error parts 7)
        then Some (clean (nth_error parts 7))
        else if truthyString (nth_error parts 6)
                && isNaN (parseInt (orEmpty (nth_error parts 6)))
             then Some (clean (nth_error parts 6))
             else None).
Proof.
  unfold parseLine, parseStockCSV_step. cbv zeta.
  destruct (Nat.leb_spec 6 (List.length (split COMMA line))) as [L|L];
    [|discriminate].
  destruct (isNaN (parseFloat (clean (nth_error (split COMMA line) 3)))) eqn:P;
    [discriminate|].
  cbn [negb app]. intros H. injection H as <-. cbn [symbol name sector price
    changePercent marketCap score reason].
  repeat split; try reflexivity. exact L.
Qed.

Lemma parseLine_keeps (line : jsstring) :
  6 <= List.length (split COMMA line) ->
  isNaN (parseFloat (clean (nth_error (split COMMA line) 3))) = false ->
  exists s, parseLine line = [s].
Proof.
  intros L P. unfold parseLine, parseStockCSV_step. cbv zeta.
  destruct (Nat.leb_spec 6 (List.length (split COMMA line))); [|lia].
  rewrite P. simpl. eexists. reflexivity.
Qed.

Lemma parseStockCSV_one_line (line : jsstring) :
  includes NEWLINE line = false -> parseStockCSV line = parseLine line.
Proof.
  intros H. rewrite parseStockCSV_lines, (split_no_separator _ _ H).
  simpl. apply app_nil_r.
Qed.

Lemma truthyString_Some (p : jsstring) :
  truthyString (Some p) = true <-> p <> [].
Proof. destruct p; simpl; split; congruence. Qed.

(* ================================================================== *)
(** ** The claims about the parser *)
(* ================================================================== *)

(** C6.  The parser is a total function from strings to lists of stocks:
    of the operations it uses one only can throw, a method called on a field
    that is [undefined], and [clean] never lets that happen.  Its result
    is the concatenation, in the order of the lines, of what each line
    contributes on its own; a line contributes at most one stock, and none
    when it has fewer than six fields or a price that is not a number; so
    a bad line neither stops the parse nor touches its neighbours. *)
Theorem parseStockCSV_total_linewise :
  (forall text, parseStockCSV text = flat_map parseLine (split NEWLINE text))
  /\ (forall before after,
        parseStockCSV (before ++ NEWLINE :: after)
        = parseStockCSV before ++ parseStockCSV after)
  /\ (forall line, List.length (parseLine line) <= 1)
  /\ (forall line,
        List.length (split COMMA line) < 6
        \/ isNaN (parseFloat (clean (nth_error (split COMMA line) 3))) = true ->
        parseLine line = [])
  /\ (forall field, clean_checked field = Return (clean field)).
Proof.
  split; [|split; [|split; [|split]]].
  - apply parseStockCSV_lines.
  - intros before after.
    rewrite !parseStockCSV_lines, split_app. apply flat_map_app.
  - apply parseLine_at_most_one.
  - intros line [H|H]; [now apply parseLine_short|now apply parseLine_bad_price].
  - intros [[|c f]|]; reflexivity.
Qed.

Lemma parseStockCSV_total_linewise_witness :
  parseLine (lit "only,five,fields,in,here") = []
  /\ parseLine (lit "X,Y,Z,n/a,1.2,1T") = []
  /\ map symbol
       (parseStockCSV
          (lit "garbage" ++ NEWLINE :: lit "A,B,C,1,2,3" ++ NEWLINE
             :: lit ",,,,,,,,," ++ NEWLINE :: lit "D,E,F,4,5,6"))
     = [lit "A"; lit "D"].
Proof.
  destruct parseStockCSV_total_linewise as (_ & _ & _ & H & _).
  split; [|split].
  - apply H. left. simpl. lia.
  - apply H. right. reflexivity.
  - reflexivity.
Defined.

(** C2, as the code has it.  A line without line break that splits into at
    least six fields and whose fourth field, cleaned, parses as a number
    gives exactly one stock; its symbol, name, sector and market capitalisation
    are the first, second, third and sixth fields cleaned, its price and
    change the fourth and fifth fields cleaned and parsed, the change being 0
    when it does not parse.  Cleaning removes every quote character of the
    field, wherever it stands, then the white space around what is left, and
    nothing else. *)
Theorem parse_positional_fields :
  forall line p0 p1 p2 p3 p4 p5 rest,
    includes NEWLINE line = false ->
    split COMMA line = p0 :: p1 :: p2 :: p3 :: p4 :: p5 :: rest ->
    isNaN (parseFloat (clean (Some p3))) = false ->
    exists s,
      parseStockCSV line = [s]
      /\ symbol s = clean (Some p0) /\ Stripped p0 (symbol s)
      /\ name s = clean (Some p1) /\ Stripped p1 (name s)
      /\ sector s = clean (Some p2) /\ Stripped p2 (sector s)
      /\ price s = parseFloat (clean (Some p3)) /\ Stripped p3 (clean (Some p3))
      /\ changePercent s =
           (if isNaN (parseFloat (clean (Some p4))) then zero
            else parseFloat (clean (Some p4)))
      /\ Stripped p4 (clean (Some p4))
      /\ marketCap s = clean (Some p5) /\ Stripped p5 (marketCap s)
      /\ (forall raw out, Stripped raw out -> out = clean (Some raw)).
Proof.
  intros line p0 p1 p2 p3 p4 p5 rest NL E P.
  assert (L : 6 <= List.length (split COMMA line)) by (rewrite E; simpl; lia).
  assert (P' : isNaN (parseFloat (clean (nth_error (split COMMA line) 3))) = false)
    by (rewrite E; exact P).
  destruct (parseLine_keeps line L P') as [s Hs].
  exists s. rewrite (parseStockCSV_one_line _ NL).
  pose proof (parseLine_kept _ Hs) as K.
  cbv zeta in K. rewrite E in K. cbn [nth_error] in K.
  destruct K as (_ & _ & H0 & H1 & H2 & H3 & H4 & H5 & _).
  assert (S : forall raw, Stripped raw (clean (Some raw)))
    by (intros raw; rewrite clean_Some; apply trim_Stripped).
  rewrite H0, H1, H2, H3, H4, H5.
  repeat split; try reflexivity; try apply S; try exact Hs.
  - intros raw out H. rewrite clean_Some. now apply Stripped_unique.
Qed.


Lemma parse_positional_fields_witness :
  exists s,
    parseStockCSV (lit "X, 'O Neil' ,Z,10.5,abc,1T") = [s]
    /\ name s = lit "O Neil"
    /\ price s = Finite (21 # 2)
    /\ changePercent s = zero.
Proof.
  destruct (@parse_positional_fields
              (lit "X, 'O Neil' ,Z,10.5,abc,1T")
              (lit "X") (lit " 'O Neil' ") (lit "Z")
              (lit "10.5") (lit "abc") (lit "1T") [] eq_refl eq_refl eq_refl)
    as (s & Hs & _ & _ & Hn & _ & _ & _ & Hp & _ & Hc & _).
  exists s. repeat split; assumption.
Defined.

(** C2, as stated, fails: a quote inside a field is removed too.  The name
    field [O'Neil] has neither quote nor white space at its ends, so
    stripping its ends keeps it whole, and the parser returns [ONeil]. *)
Lemma parse_removes_inner_quotes :
  exists s,
    parseStockCSV (lit "X,O'Neil,Z,10.5,1.2,1T") = [s]
    /\ stripEdges (lit "O'Neil") = lit "O'Neil"
    /\ name s = lit "ONeil"
    /\ name s <> stripEdges (lit "O'Neil").
Proof.
  eexists. split; [reflexivity|]. split; [reflexivity|].
  split; [reflexivity|]. discriminate.
Qed.

(** C1, as the code has it.  For a line that is kept:
    - an eighth field that is not empty is the reason, cleaned like every
      other field, and goes before the fallback to the seventh;
    - otherwise a seventh field that is not empty and whose raw text does
      not begin with an integer is the reason, cleaned;
    - otherwise there is no reason;
    - the score is 0 when the seventh field is absent or empty, and the
      integer the cleaned seventh field begins with when there is one;
    - so a line of six fields has score 0 and no reason. *)
Theorem parse_score_and_reason :
  forall line s,
    parseLine line = [s] ->
    let parts := split COMMA line in
    (forall p7, nth_error parts 7 = Some p7 -> p7 <> [] ->
       reason s = Some (clean (Some p7)) /\ Stripped p7 (clean (Some p7)))
    /\ (forall p6, truthyString (nth_error parts 7) = false ->
          nth_error parts 6 = Some p6 -> p6 <> [] ->
          isNaN (parseInt p6) = true ->
          reason s = Some (clean (Some p6)) /\ Stripped p6 (clean (Some p6)))
    /\ (truthyString (nth_error parts 7) = false ->
        truthyString (nth_error parts 6) = false
        \/ isNaN (parseInt (orEmpty (nth_error parts 6))) = false ->
        reason s = None)
    /\ (truthyString (nth_error parts 6) = false -> score s = Some zero)
    /\ (forall p6, nth_error parts 6 = Some p6 -> p6 <> [] ->
          isNaN (parseInt (clean (Some p6))) = false ->
          score s = Some (parseInt (clean (Some p6))))
    /\ (List.length parts = 6 -> score s = Some zero /\ reason s = None).
Proof.
  intros line s H parts.
  pose proof (parseLine_kept _ H) as K. cbv zeta in K. fold parts in K.
  destruct K as (_ & _ & _ & _ & _ & _ & _ & _ & Hscore & Hreason).
  assert (S : forall raw, Stripped raw (clean (Some raw)))
    by (intros raw; rewrite clean_Some; apply trim_Stripped).
  split; [|split; [|split; [|split; [|split]]]].
  - intros p7 E7 N7. split; [|apply S].
    rewrite Hreason, E7. apply truthyString_Some in N7. now rewrite N7.
  - intros p6 H7 E6 N6 P6. split; [|apply S].
    rewrite Hreason, H7, E6. apply truthyString_Some in N6.
    rewrite N6. simpl orEmpty. now rewrite P6.
  - intros H7 H6. rewrite Hreason, H7.
    destruct H6 as [H6|H6]; rewrite H6; [reflexivity|].
    now rewrite andb_false_r.
  - intros H6. now rewrite Hscore, H6.
  - intros p6 E6 N6 _. apply truthyString_Some in N6.
    now rewrite Hscore, E6, N6.
  - intros L.
    assert (E6 : nth_error parts 6 = None) by (apply nth_error_None; lia).
    assert (E7 : nth_error parts 7 = None) by (apply nth_error_None; lia).
    now rewrite Hscore, Hreason, E6, E7.
Qed.

Lemma parse_score_and_reason_witness :
  let s := {| symbol := lit "X"; name := lit "Y"; sector := lit "Z";
              price := Finite (21 # 2); changePercent := Finite (6 # 5);
              marketCap := lit "1T";
              reason := Some (lit "Strong fundamentals");
              score := Some (Finite 87) |} in
  parseLine (lit "X,Y,Z,10.5,1.2,1T,87,Strong fundamentals") = [s]
  /\ reason s = Some (clean (Some (lit "Strong fundamentals")))
  /\ score s = Some (parseInt (clean (Some (lit "87")))).
Proof.
  intros s.
  assert (H : parseLine (lit "X,Y,Z,10.5,1.2,1T,87,Strong fundamentals") = [s])
    by (vm_compute; reflexivity).
  split; [exact H|].
  destruct (@parse_score_and_reason _ _ H) as (R7 & _ & _ & _ & S6 & _).
  split.
  - apply (R7 (lit "Strong fundamentals")).
    + vm_compute; reflexivity.
    + discriminate.
  - apply (S6 (lit "87")).
    + vm_compute; reflexivity.
    + discriminate.
    + vm_compute; reflexivity.
Defined.

(** C1, as stated, fails twice.  On the legacy line of the specification
    the seventh field [Good pick] is read as the reason, but the score is
    what [parseInt] returns on it, [NaN], not 0.  And an eighth field is not
    taken verbatim: its quotes and the white space around it go. *)
Lemma parse_legacy_score_is_NaN :
  (exists s,
     parseStockCSV (lit "X,Y,Z,10.5,1.2,1T,Good pick") = [s]
     /\ reason s = Some (lit "Good pick")
     /\ score s = Some NaN
     /\ score s <> Some zero)
  /\ (exists s,
        parseStockCSV (lit "X,Y,Z,10.5,1.2,1T,87, 'Strong' ") = [s]
        /\ nth_error (split COMMA (lit "X,Y,Z,10.5,1.2,1T,87, 'Strong' ")) 7
           = Some (lit " 'Strong' ")
        /\ reason s = Some (lit "Strong")
        /\ reason s <> Some (lit " 'Strong' ")).
Proof.
  split; eexists; (split; [reflexivity|]).
  - split; [reflexivity|]. split; [reflexivity|]. discriminate.
  - split; [reflexivity|]. split; [reflexivity|]. discriminate.
Qed.

(* ================================================================== *)
(** ** The service layer, run by run *)
(* ================================================================== *)

Lemma sameComponent_refl (w : World) : sameComponent w w.
Proof. repeat split. Qed.

Lemma scanMarketSector_run (env : Environment) (sectorName : jsstring) (w : World) :
  exists w',
    scanMarketSector env sectorName w
    = (Return (fst (scanQuery env sectorName (requests w))), w')
    /\ sameComponent w w'
    /\ requests w' = snd (scanQuery env sectorName (requests w)).
Proof.
  unfold scanMarketSector, scanQuery.
  destruct (negb (truthyString (Some (apiKey env)))).
  - exists w. repeat split.
  - unfold try_catch, bind, call, ret.
    destruct (generateContent env (requests w) (scanRequest env sectorName));
      eexists; repeat split.
Qed.

Lemma fetchMarketSnapshot_run (env : Environment) (w : World) :
  exists picks w',
    fetchMarketSnapshot env w = (Return picks, w')
    /\ sameComponent w w'
    /\ (truthyString (Some (apiKey env)) = false -> picks = [] /\ w' = w)
    /\ (forall e, generateContent env (requests w) snapshotRequest = Rejected e ->
        picks = [])
    /\ (forall r, truthyString (Some (apiKey env)) = true ->
        generateContent env (requests w) snapshotRequest = Resolved r ->
        picks = parseStockCSV (string_or (text r) [])).
Proof.
  unfold fetchMarketSnapshot.
  destruct (truthyString (Some (apiKey env))) eqn:K; cbn [negb]; cbv beta iota.
  - unfold try_catch, bind, call, ret.
    destruct (generateContent env (requests w) snapshotRequest) as [e|r] eqn:G.
    + eexists [], _. split; [reflexivity|]. split; [repeat split|].
      split; [discriminate|]. split; [reflexivity|]. discriminate.
    + eexists _, _. split; [reflexivity|]. split; [repeat split|].
      split; [discriminate|]. split; [discriminate|].
      intros r0 _ E. now injection E as <-.
  - exists [], w. split; [reflexivity|]. split; [repeat split|].
    split; [now split|]. split; [reflexivity|]. discriminate.
Qed.

Lemma gatherPhase_run (env : Environment) (symbol' : jsstring) (price' : number)
    (sector' : jsstring) (w : World) :
  exists w',
    gatherPhase env symbol' price' sector' w
    = (Return (gathered env symbol' price' sector' (requests w)), w')
    /\ sameComponent w w'
    /\ requests w' = requests w ++ [gatherRequest env symbol' price' sector'].
Proof.
  unfold gatherPhase, gathered, try_catch, bind, call, ret.
  destruct (generateContent env (requests w)
              (gatherRequest env symbol' price' sector'));
    eexists; repeat split.
Qed.

Lemma extractPhase_run (env : Environment) (symbol' : jsstring) (price' : number)
    (context : jsstring) (sources' : list Source) (w : World) :
  exists w',
    extractPhase env symbol' price' context sources' w
    = (extractResult env
         (generateContent env (requests w)
            (extractRequest env symbol' price' context)) sources', w')
    /\ sameComponent w w'
    /\ requests w' = requests w ++ [extractRequest env symbol' price' context].
Proof.
  unfold extractPhase, extractResult, try_catch, bind, call, ret, throw.
  destruct (generateContent env (requests w)
              (extractRequest env symbol' price' context)) as [e|r].
  - eexists; repeat split.
  - destruct (negb (truthyString (text r))).
    + eexists; repeat split.
    + destruct (JSON_parse env (orEmpty (text r))) as [[a|]|e];
        eexists; repeat split.
Qed.

Lemma analyzeStockWithGemini_run (env : Environment) (symbol' : jsstring)
    (price' : number) (sector' : jsstring) (w : World) :
  truthyString (Some (apiKey env)) = true ->
  exists w',
    analyzeStockWithGemini env symbol' price' sector' w
    = (extractResult env
         (extractOutcome env symbol' price' sector' (requests w))
         (snd (gathered env symbol' price' sector' (requests w))), w')
    /\ sameComponent w w'
    /\ requests w'
       = requests w ++ [gatherRequest env symbol' price' sector';
                        extractRequestOf env symbol' price' sector' (requests w)].
Proof.
  intros K. unfold analyzeStockWithGemini. rewrite K. cbn [negb]. cbv beta iota.
  unfold bind at 1.
  destruct (gatherPhase_run env symbol' price' sector' w) as (w1 & E1 & S1 & R1).
  rewrite E1.
  destruct (extractPhase_run env symbol' price'
              (fst (gathered env symbol' price' sector' (requests w)))
              (snd (gathered env symbol' price' sector' (requests w))) w1)
    as (w2 & E2 & S2 & R2).
  exists w2. rewrite E2, R1. unfold extractOutcome, extractRequestOf.
  split; [reflexivity|]. split.
  - destruct S1 as (a1 & b1 & c1 & d1), S2 as (a2 & b2 & c2 & d2).
    repeat split; congruence.
  - rewrite R2, R1, <- app_assoc. reflexivity.
Qed.


(* ================================================================== *)
(** ** The claims about the service layer *)
(* ================================================================== *)

(** C8.  With no key configured, the sector scan and the snapshot return
    the empty list and the analysis throws the error [API Key is missing];
    in the three cases the world is left as it was, so no request was sent
    to the service. *)
Theorem missing_key_short_circuits :
  forall env sectorName symbol' price' sector' w,
    apiKey env = [] ->
    scanMarketSector env sectorName w = (Return [], w)
    /\ fetchMarketSnapshot env w = (Return [], w)
    /\ analyzeStockWithGemini env symbol' price' sector' w
       = (Throw (MkError (lit "API Key is missing")), w)
    /\ requests (snd (scanMarketSector env sectorName w)) = requests w
    /\ requests (snd (fetchMarketSnapshot env w)) = requests w
    /\ requests (snd (analyzeStockWithGemini env symbol' price' sector' w))
       = requests w.
Proof.
  intros env sectorName symbol' price' sector' w K.
  unfold scanMarketSector, fetchMarketSnapshot, analyzeStockWithGemini.
  rewrite K. repeat split.
Qed.

Lemma missing_key_short_circuits_witness :
  scanMarketSector (sampleEnv [] [answer (lit "A,B,C,1,2,3")])
    (lit "IT & Technology") initialWorld
  = (Return [], initialWorld).
Proof.
  apply (@missing_key_short_circuits
           (sampleEnv [] [answer (lit "A,B,C,1,2,3")])
           (lit "IT & Technology") (lit "TCS") zero UNKNOWN initialWorld).
  reflexivity.
Defined.



(* ================================================================== *)
(** ** Sorting: sorted, stable, and nothing else *)
(* ================================================================== *)

Section StableSort.

Variable A : Type.
Variable comparefn : A -> A -> number.

(** [R x y]: [x] may stand before [y].  The comparator sends [x] after
    [y] exactly when that is not the case. *)
Variable R : A -> A -> bool.
Hypothesis comparefn_R :
  forall x y, gtZero (SortCompare comparefn x y) = negb (R x y).
Hypothesis R_total : forall x y, R x y = true \/ R y x = true.
Hypothesis R_trans :
  forall x y z, R x y = true -> R y z = true -> R x z = true.

Local Abbreviation tie := (ties R).

Lemma R_refl (x : A) : R x x = true.
Proof. now destruct (R_total x x). Qed.

Lemma sort_insert_unfold (x y : A) (l : list A) :
  sort_insert comparefn x (y :: l)
  = if R x y then x :: y :: l else y :: sort_insert comparefn x l.
Proof. simpl. rewrite comparefn_R. now destruct (R x y). Qed.

Lemma sort_insert_perm (x : A) (l : list A) :
  Permutation (sort_insert comparefn x l) (x :: l).
Proof.
  induction l as [|y l IH]; [reflexivity|].
  rewrite sort_insert_unfold. destruct (R x y); [reflexivity|].
  rewrite IH. apply perm_swap.
Qed.

Lemma Array_sort_perm (l : list A) : Permutation (Array_sort comparefn l) l.
Proof.
  induction l as [|x l IH]; simpl; [constructor|].
  rewrite sort_insert_perm. now constructor.
Qed.

Lemma sort_insert_hd (x a : A) (l : list A) :
  R a x = true -> HdRel (fun u v => R u v = true) a l ->
  HdRel (fun u v => R u v = true) a (sort_insert comparefn x l).
Proof.
  intros Hax H. destruct l as [|y l].
  - simpl. now constructor.
  - rewrite sort_insert_unfold.
    inversion H; subst. destruct (R x y); now constructor.
Qed.

Lemma sort_insert_sorted (x : A) (l : list A) :
  Sorted (fun u v => R u v = true) l ->
  Sorted (fun u v => R u v = true) (sort_insert comparefn x l).
Proof.
  induction l as [|y l IH]; intros H.
  - simpl. repeat constructor.
  - rewrite sort_insert_unfold. destruct (R x y) eqn:E.
    + constructor; [exact H|now constructor].
    + inversion H; subst. constructor; [now apply IH|].
      apply sort_insert_hd; [|assumption].
      destruct (R_total x y); congruence.
Qed.

Lemma Array_sort_sorted (l : list A) :
  StronglySorted (fun u v => R u v = true) (Array_sort comparefn l).
Proof.
  apply Sorted_StronglySorted.
  - intros x y z. apply R_trans.
  - induction l as [|x l IH]; simpl; [constructor|].
    now apply sort_insert_sorted.
Qed.

Lemma tie_exclusive (k x y : A) :
  R x y = false -> tie k x = true -> tie k y = true -> False.
Proof.
  unfold ties. intros E Hx Hy.
  apply andb_true_iff in Hx. apply andb_true_iff in Hy.
  destruct Hx as [_ Hxk], Hy as [Hky _].
  rewrite (R_trans Hxk Hky) in E. discriminate.
Qed.

Lemma sort_insert_stable (k x : A) (l : list A) :
  filter (tie k) (sort_insert comparefn x l) = filter (tie k) (x :: l).
Proof.
  induction l as [|y l IH]; [reflexivity|].
  rewrite sort_insert_unfold. destruct (R x y) eqn:E; [reflexivity|].
  cbn [filter]. rewrite IH. cbn [filter].
  destruct (tie k x) eqn:Tx, (tie k y) eqn:Ty; try reflexivity.
  exfalso. exact (@tie_exclusive k x y E Tx Ty).
Qed.

Lemma Array_sort_stable (k : A) (l : list A) :
  filter (tie k) (Array_sort comparefn l) = filter (tie k) l.
Proof.
  induction l as [|x l IH]; [reflexivity|].
  simpl Array_sort. rewrite sort_insert_stable. cbn [filter]. now rewrite IH.
Qed.

(** Two sorted lists with the same elements in the same order inside
    every class of ties are the same list. *)
Lemma stable_sorted_unique (l1 l2 : list A) :
  StronglySorted (fun u v => R u v = true) l1 ->
  StronglySorted (fun u v => R u v = true) l2 ->
  (forall k, filter (tie k) l1 = filter (tie k) l2) ->
  l1 = l2.
Proof.
  revert l2. induction l1 as [|a l1 IH]; intros l2 S1 S2 F.
  - destruct l2 as [|b l2]; [reflexivity|].
    assert (Tb : tie b b = true) by (unfold ties; now rewrite R_refl).
    specialize (F b). cbn [filter] in F. rewrite Tb in F. discriminate.
  - destruct l2 as [|b l2].
    + assert (Ta : tie a a = true) by (unfold ties; now rewrite R_refl).
      specialize (F a). cbn [filter] in F. rewrite Ta in F. discriminate.
    + inversion S1 as [|? ? S1' H1]; subst.
      inversion S2 as [|? ? S2' H2]; subst.
      assert (Ta : tie a a = true) by (unfold ties; now rewrite R_refl).
      assert (Tb : tie b b = true) by (unfold ties; now rewrite R_refl).
      assert (Hab : a = b).
      { pose proof (F a) as Fa. pose proof (F b) as Fb.
        cbn [filter] in Fa, Fb. rewrite Ta in Fa. rewrite Tb in Fb.
        destruct (tie a b) eqn:Tab.
        - now injection Fa.
        - (* [a] occurs in [l2], hence after [b]; [b] occurs in [l1] *)
          assert (Ia : In a (filter (tie a) l2)) by (rewrite <- Fa; now left).
          apply filter_In in Ia. destruct Ia as [Ia _].
          assert (Rba : R b a = true)
            by (rewrite Forall_forall in H2; now apply H2).
          destruct (tie b a) eqn:Tba.
          + now injection Fb.
          + assert (Ib : In b (filter (tie b) l1)) by (rewrite Fb; now left).
            apply filter_In in Ib. destruct Ib as [Ib _].
            assert (Rab : R a b = true)
              by (rewrite Forall_forall in H1; now apply H1).
            unfold ties in Tab. rewrite Rab, Rba in Tab. discriminate. }
      subst b. f_equal. apply IH; try assumption.
      intros k. specialize (F k). cbn [filter] in F.
      destruct (tie k a); [now injection F|exact F].
Qed.

End StableSort.

(* ================================================================== *)
(** ** The order of the scores *)
(* ================================================================== *)

Lemma scoreOrZero_not_NaN (s : Stock) : isNaN (scoreOrZero s) = false.
Proof.
  unfold scoreOrZero, num_or. destruct (score s) as [x|]; [|reflexivity].
  destruct x as [| |q]; try reflexivity.
  now destruct (truthy (Finite q)).
Qed.

Lemma score_missing_is_zero (s : Stock) :
  score s = None \/ score s = Some NaN -> scoreOrZero s = zero.
Proof. unfold scoreOrZero. now intros [-> | ->]. Qed.

Lemma gtZero_sub (a b : number) :
  isNaN a = false -> isNaN b = false ->
  gtZero (let v := sub a b in if isNaN v then zero else v) = negb (num_leb a b).
Proof.
  destruct a as [|sa|p], b as [|sb|q]; try discriminate; intros _ _.
  - destruct sa, sb; reflexivity.
  - destruct sa; reflexivity.
  - destruct sb; reflexivity.
  - change (gtZero (Finite (Qred (p - q))) = negb (Qle_bool p q)).
    unfold gtZero.
    destruct (Qcompare_spec (Qred (p - q)) 0) as [H|H|H];
      rewrite Qred_correct in H;
      destruct (Qle_bool p q) eqn:E; try reflexivity.
    + assert (L : (p <= q)%Q) by lra. apply Qle_bool_iff in L. congruence.
    + assert (L : (p <= q)%Q) by lra. apply Qle_bool_iff in L. congruence.
    + apply Qle_bool_iff in E. lra.
Qed.

Lemma num_leb_total (a b : number) :
  isNaN a = false -> isNaN b = false ->
  num_leb a b = true \/ num_leb b a = true.
Proof.
  destruct a as [|sa|p], b as [|sb|q]; try discriminate; intros _ _.
  - destruct sa, sb; auto.
  - destruct sa; auto.
  - destruct sb; auto.
  - change (Qle_bool p q = true \/ Qle_bool q p = true).
    destruct (Qlt_le_dec q p) as [H|H].
    + right. apply Qle_bool_iff. lra.
    + left. now apply Qle_bool_iff.
Qed.

Lemma num_leb_trans (a b c : number) :
  num_leb a b = true -> num_leb b c = true -> num_leb a c = true.
Proof.
  destruct a as [|sa|p], b as [|sb|q], c as [|sc|r];
    try discriminate; try (destruct sa); try (destruct sb); try (destruct sc);
    try discriminate; try reflexivity.
  change (Qle_bool p q = true -> Qle_bool q r = true -> Qle_bool p r = true).
  rewrite !Qle_bool_iff. lra.
Qed.

Lemma byScoreDescending_order (x y : Stock) :
  gtZero (SortCompare byScoreDescending x y) = negb (scoreNotBelow x y).
Proof.
  unfold SortCompare, byScoreDescending, scoreNotBelow.
  apply gtZero_sub; apply scoreOrZero_not_NaN.
Qed.

Lemma scoreNotBelow_total (x y : Stock) :
  scoreNotBelow x y = true \/ scoreNotBelow y x = true.
Proof.
  unfold scoreNotBelow.
  destruct (@num_leb_total _ _ (scoreOrZero_not_NaN y) (scoreOrZero_not_NaN x));
    auto.
Qed.

Lemma scoreNotBelow_trans (x y z : Stock) :
  scoreNotBelow x y = true -> scoreNotBelow y z = true ->
  scoreNotBelow x z = true.
Proof.
  unfold scoreNotBelow. intros H1 H2. exact (@num_leb_trans _ _ _ H2 H1).
Qed.

(** The key of the sort, read off the [score] field. *)
Lemma scoreOrZero_finite (s : Stock) (q : Q) :
  score s = Some (Finite q) -> ~ (q == 0)%Q -> scoreOrZero s = Finite q.
Proof.
  intros E N. unfold scoreOrZero, num_or. rewrite E. cbn [truthy].
  destruct (Qeq_bool q 0) eqn:B; [|reflexivity].
  apply Qeq_bool_iff in B. contradiction.
Qed.

Lemma scoreOrZero_zero (s : Stock) (q : Q) :
  score s = Some (Finite q) -> (q == 0)%Q -> scoreOrZero s = zero.
Proof.
  intros E Z. unfold scoreOrZero, num_or. rewrite E. cbn [truthy].
  apply Qeq_bool_iff in Z. now rewrite Z.
Qed.

Lemma scoreOrZero_infinite (s : Stock) (b : bool) :
  score s = Some (Infinity b) -> scoreOrZero s = Infinity b.
Proof. intros E. unfold scoreOrZero. now rewrite E. Qed.

Lemma scoreOrZero_integer (s : Stock) (m : Z) :
  score s = Some (ofZ m) -> scoreOrZero s = ofZ m.
Proof.
  intros E. unfold scoreOrZero, num_or, ofZ in *. rewrite E. cbn [truthy].
  destruct (Qeq_bool (inject_Z m) 0) eqn:B; [|reflexivity].
  apply Qeq_bool_iff in B. unfold Qeq, inject_Z in B. cbn in B.
  replace m with 0%Z by lia. reflexivity.
Qed.

Lemma StronglySorted_impl {A} (R S : A -> A -> Prop) (l : list A) :
  (forall a b, R a b -> S a b) -> StronglySorted R l -> StronglySorted S l.
Proof.
  intros I H. induction H as [|x l H IH F]; constructor; [exact IH|].
  rewrite Forall_forall in *. intros y Hy. now apply I, F.
Qed.

(** The comparison of the code is the order of the numbers. *)
Lemma num_leb_numberLe (x y : number) :
  num_leb x y = true <-> numberLe x y.
Proof.
  split.
  - destruct x as [|sx|p], y as [|sy|q]; try discriminate;
      try (destruct sx); try (destruct sy); try discriminate; intros H;
      try (now apply numberLe_below); try (now apply numberLe_above).
    apply numberLe_finite. now apply Qle_bool_iff.
  - intros H. destruct H as [y H|x H|p q H].
    + now destruct y.
    + destruct x as [|[|]|]; try discriminate; reflexivity.
    + now apply Qle_bool_iff.
Qed.

Lemma scoreNotBelow_numberLe (a b : Stock) :
  scoreNotBelow a b = true <-> numberLe (scoreOrZero b) (scoreOrZero a).
Proof. unfold scoreNotBelow. apply num_leb_numberLe. Qed.

Lemma scoreNotBelow_integers (a b : Stock) (m n : Z) :
  score a = Some (ofZ m) -> score b = Some (ofZ n) ->
  (scoreNotBelow a b = true <-> (n <= m)%Z).
Proof.
  intros Ha Hb. unfold scoreNotBelow.
  rewrite (scoreOrZero_integer _ Ha), (scoreOrZero_integer _ Hb).
  unfold ofZ. cbn [num_leb]. rewrite Qle_bool_iff. now rewrite <- Zle_Qle.
Qed.

(* ================================================================== *)
(** ** The scan, run by run *)
(* ================================================================== *)

Lemma sameButProgress_trans (a b c : DashboardState) :
  sameButProgress a b -> sameButProgress b c -> sameButProgress a c.
Proof.
  unfold sameButProgress. intros (h1 & h2 & h3 & h4 & h5 & h6)
    (k1 & k2 & k3 & k4 & k5 & k6). repeat split; congruence.
Qed.

(** *** Stepping through the monad *)

Lemma setState_run (f : DashboardState -> DashboardState) (w : World) :
  setState f w = (Return tt, committed (f (state w)) w).
Proof. reflexivity. Qed.

Lemma bind_Return {A B} (m : M A) (k : A -> M B) (w w' : World) (a : A) :
  m w = (Return a, w') -> bind m k w = k a w'.
Proof. unfold bind. now intros ->. Qed.

Lemma bind_Throw {A B} (m : M A) (k : A -> M B) (w w' : World) (e : Error) :
  m w = (Throw e, w') -> bind m k w = (Throw e, w').
Proof. unfold bind. now intros ->. Qed.

Lemma try_catch_Return {A} (m : M A) (h : Error -> M A) (w w' : World) (a : A) :
  m w = (Return a, w') -> try_catch m h w = (Return a, w').
Proof. unfold try_catch. now intros ->. Qed.

Lemma try_catch_Throw {A} (m : M A) (h : Error -> M A) (w w' : World) (e : Error) :
  m w = (Throw e, w') -> try_catch m h w = h e w'.
Proof. unfold try_catch. now intros ->. Qed.

Lemma last_In {A} (d c : A) (l : list A) : In (last (c :: l) d) (c :: l).
Proof.
  revert c. induction l as [|c' l IH]; intros c; [now left|].
  right. apply IH.
Qed.

Lemma last_default {A} (d1 d2 c : A) (l : list A) :
  last (c :: l) d1 = last (c :: l) d2.
Proof.
  revert c. induction l as [|c' l IH]; intros c; [reflexivity|].
  change (last (c' :: l) d1 = last (c' :: l) d2). apply IH.
Qed.

Lemma last_sameButProgress (d : DashboardState) (cs : list DashboardState) :
  Forall (sameButProgress d) cs -> sameButProgress d (last cs d).
Proof.
  intros F. destruct cs as [|c cs]; [repeat split|].
  rewrite Forall_forall in F. apply F, last_In.
Qed.

Lemma scanLoop_run (env : Environment) (rest : list jsstring) :
  forall (i : nat) (acc : list Stock) (w : World),
  exists w' cs,
    scanLoop env i rest acc w
    = (Return (acc ++ List.concat (sectorResults env rest (requests w))), w')
    /\ commits w' = commits w ++ cs
    /\ map progress cs = map progressAt (seq i (List.length rest))
    /\ Forall (sameButProgress (state w)) cs
    /\ state w' = last cs (state w)
    /\ alerts w' = alerts w
    /\ crashed w' = crashed w.
Proof.
  induction rest as [|sector rest IH]; intros i acc w.
  - exists w, []. simpl. rewrite !app_nil_r. repeat split. constructor.
  - cbn [scanLoop].
    erewrite bind_Return; [|apply setState_run].
    set (s1 := {| stocks := stocks (state w);
                  selectedStock := selectedStock (state w);
                  analysis := analysis (state w); loading := loading (state w);
                  view := view (state w); scanMode := scanMode (state w);
                  progress := progressAt i;
                  scanStatus := lit "Analyzing " ++ sector ++ lit "..." |}).
    destruct (scanMarketSector_run env sector (committed s1 w))
      as (w2 & E & (S1 & S2 & S3 & S4) & R).
    erewrite bind_Return; [|exact E].
    cbn [committed state commits alerts requests crashed] in *.
    destruct (IH (S i) (acc ++ fst (scanQuery env sector (requests w))) w2)
      as (w' & cs & E' & C & P & F & L & Al & Cr).
    exists w', (s1 :: cs).
    rewrite E', R. cbn [sectorResults List.concat]. rewrite <- app_assoc.
    split; [reflexivity|]. split.
    { rewrite C, S2. now rewrite <- app_assoc. }
    split.
    { cbn [map seq List.length]. now rewrite P. }
    split.
    { constructor; [repeat split|].
      rewrite S1 in F. revert F. apply Forall_impl. intros c.
      apply sameButProgress_trans. repeat split. }
    split.
    { rewrite L, S1. destruct cs as [|d cs]; [reflexivity|].
      change (last (d :: cs) s1 = last (d :: cs) (state w)).
      apply last_default. }
    split; congruence.
Qed.

Lemma handleScanForValue_run (env : Environment) (w : World) :
  exists w' reset perSector final,
    handleScanForValue env w = (Return tt, w')
    /\ commits w' = commits w ++ reset :: perSector ++ [final]
    /\ state w' = final
    /\ progress reset = zero
    /\ map progress perSector = map progressAt (seq 0 (List.length sectors))
    /\ progress final = ofNat 100
    /\ stocks final
       = firstn 20
           (Array_sort byScoreDescending
              (List.concat (sectorResults env sectors (requests w))))
    /\ loading final = false
    /\ scanMode final = true
    /\ scanStatus final = lit "Scan Complete"
    /\ alerts w' = alerts w
    /\ crashed w' = crashed w.
Proof.
  unfold handleScanForValue.
  erewrite bind_Return; [|apply setState_run].
  set (s0 := {| stocks := []; selectedStock := selectedStock (state w);
                analysis := analysis (state w); loading := true;
                view := view (state w); scanMode := true; progress := zero;
                scanStatus := lit "Initializing Nifty 200 Scan..." |}).
  destruct (scanLoop_run env sectors 0 [] (committed s0 w))
    as (w1 & cs & E & C & P & F & L & Al & Cr).
  cbn [committed state commits alerts requests crashed] in *.
  erewrite try_catch_Return;
    [|erewrite bind_Return; [apply setState_run|exact E]].
  set (sf := {| stocks := firstn 20
                            (Array_sort byScoreDescending
                               ([] ++ List.concat
                                  (sectorResults env sectors (requests w))));
                selectedStock := selectedStock (state w1);
                analysis := analysis (state w1); loading := false;
                view := view (state w1); scanMode := scanMode (state w1);
                progress := ofNat 100; scanStatus := lit "Scan Complete" |}).
  exists (committed sf w1), s0, cs, sf. split; [reflexivity|].
  cbn [committed state commits alerts crashed].
  split.
  { rewrite C. rewrite <- (app_assoc (commits w) [s0] cs).
    rewrite <- (app_assoc (commits w) ([s0] ++ cs) [sf]). reflexivity. }
  split; [reflexivity|]. split; [reflexivity|]. split; [exact P|].
  unfold sf. cbn [progress stocks loading scanMode scanStatus].
  split; [reflexivity|]. split; [reflexivity|]. split; [reflexivity|].
  split.
  { rewrite L. now destruct (last_sameButProgress F) as (_ & _ & _ & _ & _ & H). }
  split; [reflexivity|]. split; assumption.
Qed.

Lemma sectorResults_length (env : Environment) (rest : list jsstring) :
  forall sent, List.length (sectorResults env rest sent) = List.length rest.
Proof.
  induction rest as [|s rest IH]; intros sent; simpl; [reflexivity|].
  now rewrite IH.
Qed.

(* ================================================================== *)
(** ** The claims about the scan *)
(* ================================================================== *)

(** C4.  Whatever the five sector queries return, the scan ends normally
    and the list it commits is the first 20 entries of [sorted], where
    [sorted] is the concatenation of the five result lists, in the order of
    the sectors, rearranged so that scores never increase (a score that is
    missing, or [NaN], or 0, counts as 0) and so that stocks of equal score
    keep the order they had in the concatenation.  There is one such list.
    The score a stock is ranked by is the value of its [score] field when
    that is a number other than 0, and the ranking is the order of the
    numbers: of two stocks with the integer scores [m] and [n] the first may
    stand before the second exactly when [n <= m]. *)
Theorem scan_commits_top_twenty :
  forall env w,
    let picks := sectorResults env sectors (requests w) in
    let allPicks := List.concat picks in
    exists sorted w',
      handleScanForValue env w = (Return tt, w')
      /\ List.length picks = 5
      /\ stocks (state w') = firstn 20 sorted
      /\ Permutation sorted allPicks
      /\ StronglySorted (fun a b => scoreNotBelow a b = true) sorted
      /\ (forall k, filter (sameScore k) sorted = filter (sameScore k) allPicks)
      /\ (forall other,
            StronglySorted (fun a b => scoreNotBelow a b = true) other ->
            (forall k, filter (sameScore k) other = filter (sameScore k) allPicks) ->
            other = sorted)
      /\ (forall s, score s = None \/ score s = Some NaN -> scoreOrZero s = zero)
      /\ (forall s q,
            score s = Some (Finite q) -> ~ (q == 0)%Q -> scoreOrZero s = Finite q)
      /\ (forall s q,
            score s = Some (Finite q) -> (q == 0)%Q -> scoreOrZero s = zero)
      /\ (forall s b, score s = Some (Infinity b) -> scoreOrZero s = Infinity b)
      /\ (forall a b,
            scoreNotBelow a b = true
            <-> numberLe (scoreOrZero b) (scoreOrZero a))
      /\ (forall a b m n,
            score a = Some (ofZ m) -> score b = Some (ofZ n) ->
            (scoreNotBelow a b = true <-> (n <= m)%Z))
      /\ StronglySorted
           (fun a b => numberLe (scoreOrZero b) (scoreOrZero a)) sorted.
Proof.
  intros env w picks allPicks.
  destruct (handleScanForValue_run env w)
    as (w' & reset & perSector & final & E & _ & St & _ & _ & _ & Sk & _).
  exists (Array_sort byScoreDescending allPicks), w'.
  pose proof (@Array_sort_sorted Stock byScoreDescending scoreNotBelow
                byScoreDescending_order scoreNotBelow_total
                scoreNotBelow_trans allPicks) as Sorted_.
  pose proof (fun k => @Array_sort_stable Stock byScoreDescending scoreNotBelow
                byScoreDescending_order scoreNotBelow_trans k allPicks)
    as Stable_.
  split; [exact E|]. split; [apply sectorResults_length|].
  split; [rewrite St; exact Sk|].
  split.
  { exact (@Array_sort_perm Stock byScoreDescending scoreNotBelow
             byScoreDescending_order allPicks). }
  split; [exact Sorted_|]. split; [exact Stable_|].
  split.
  { intros other So Fo.
    apply (@stable_sorted_unique Stock scoreNotBelow scoreNotBelow_total
             other _ So Sorted_).
    intros k. unfold sameScore in Fo. rewrite Fo. symmetry. apply Stable_. }
  split; [apply score_missing_is_zero|].
  split; [apply scoreOrZero_finite|].
  split; [apply scoreOrZero_zero|].
  split; [apply scoreOrZero_infinite|].
  split; [apply scoreNotBelow_numberLe|].
  split; [apply scoreNotBelow_integers|].
  apply (@StronglySorted_impl _ _ _ _
           (fun a b => proj1 (scoreNotBelow_numberLe a b)) Sorted_).
Qed.

(** C9.  A scan commits, in this order: the reset, with progress 0; one
    state per sector, with progress 0, 20, 40, 60, 80, the rounding of
    [index / 5 * 100]; the final state, with progress 100.  The reset and
    the first sector write the same 0, so the values progress takes before
    the final commit are 0, 20, 40, 60, 80.  The sequence never decreases.
    The five percentages are the same when the division and the product are
    rounded to binary64. *)
Theorem scan_progress_sequence :
  forall env w,
    exists w' reset perSector final,
      handleScanForValue env w = (Return tt, w')
      /\ commits w' = commits w ++ reset :: perSector ++ [final]
      /\ state w' = final
      /\ progress reset = ofZ 0
      /\ map progress perSector = map ofZ [0; 20; 40; 60; 80]%Z
      /\ map progress perSector
         = map (fun i => Math_round (mul (div (ofNat i) (ofNat 5)) (ofNat 100)))
               (seq 0 5)
      /\ progress final = ofZ 100
      /\ valuesTaken (map progress (reset :: perSector))
         = map ofZ [0; 20; 40; 60; 80]%Z
      /\ Sorted (fun a b => num_leb a b = true)
           (map progress (reset :: perSector ++ [final]))
      /\ map Binary64.progressAt (seq 0 5)
         = [Some 0; Some 20; Some 40; Some 60; Some 80]%Z.
Proof.
  intros env w.
  destruct (handleScanForValue_run env w)
    as (w' & reset & perSector & final & E & C & St & P0 & P & P1 & _).
  exists w', reset, perSector, final.
  split; [exact E|]. split; [exact C|]. split; [exact St|].
  split; [exact P0|].
  assert (V : map progressAt (seq 0 (List.length sectors))
              = map ofZ [0; 20; 40; 60; 80]%Z) by (vm_compute; reflexivity).
  split; [now rewrite P|]. split; [exact P|]. split; [exact P1|].
  split; [|split].
  - cbn [map]. rewrite P, V, P0. reflexivity.
  - cbn [map]. rewrite map_app, P, V, P0. cbn [map app]. rewrite P1.
    repeat constructor.
  - vm_compute. reflexivity.
Qed.

(** C10.  Whatever the service does, the sector scan and the snapshot
    return a list and never throw; a rejected call gives the empty list, so
    a sector whose query fails adds nothing to the picks; and the scan never
    reaches its [catch] block: it shows no alert, stays in scan mode and ends
    on the state of a completed scan. *)
Theorem scan_queries_never_throw :
  forall env,
    (forall sectorName w,
       exists picks w',
         scanMarketSector env sectorName w = (Return picks, w')
         /\ (forall e,
               generateContent env (requests w) (scanRequest env sectorName)
               = Rejected e -> picks = []))
    /\ (forall w,
          exists picks w',
            fetchMarketSnapshot env w = (Return picks, w')
            /\ (forall e,
                  generateContent env (requests w) snapshotRequest = Rejected e ->
                  picks = []))
    /\ (forall sector rest sent e,
          generateContent env sent (scanRequest env sector) = Rejected e ->
          List.concat (sectorResults env (sector :: rest) sent)
          = List.concat (sectorResults env rest
                           (snd (scanQuery env sector sent))))
    /\ (forall w,
          exists w',
            handleScanForValue env w = (Return tt, w')
            /\ alerts w' = alerts w
            /\ scanMode (state w') = true
            /\ loading (state w') = false
            /\ progress (state w') = ofZ 100
            /\ scanStatus (state w') = lit "Scan Complete").
Proof.
  intros env. split; [|split; [|split]].
  - intros sectorName w.
    destruct (scanMarketSector_run env sectorName w) as (w' & E & _ & _).
    do 2 eexists. split; [exact E|].
    intros e G. unfold scanQuery. rewrite G.
    now destruct (negb (truthyString (Some (apiKey env)))).
  - intros w.
    destruct (fetchMarketSnapshot_run env w) as (picks & w' & E & _ & _ & R & _).
    exists picks, w'. split; [exact E|exact R].
  - intros sector rest sent e G. cbn [sectorResults List.concat].
    unfold scanQuery at 1. rewrite G.
    now destruct (negb (truthyString (Some (apiKey env)))).
  - intros w.
    destruct (handleScanForValue_run env w)
      as (w' & reset & perSector & final & E & _ & St & _ & _ & P1 & _ & L & Sm
          & Ss & Al & _).
    exists w'. rewrite St. repeat split; assumption.
Qed.

Lemma scan_queries_never_throw_witness :
  let env := sampleEnv (lit "key")
               [Rejected (MkError (lit "quota")); answer (lit "A,B,C,1,2,3,70,ok")] in
  fst (scanMarketSector env (lit "IT & Technology") initialWorld) = Return []
  /\ alerts (snd (handleScanForValue env initialWorld)) = []
  /\ map symbol (stocks (state (snd (handleScanForValue env initialWorld))))
     = [lit "A"].
Proof.
  intros env.
  destruct (scan_queries_never_throw env) as (H1 & _ & _ & H4).
  split; [|split].
  - destruct (H1 (lit "IT & Technology") initialWorld) as (picks & w' & E & R).
    rewrite E. cbn [fst]. f_equal.
    apply (R (MkError (lit "quota"))). reflexivity.
  - destruct (H4 initialWorld) as (w' & E & Al & _). rewrite E. exact Al.
  - vm_compute. reflexivity.
Defined.

(* ================================================================== *)
(** ** The analysis, run by run *)
(* ================================================================== *)

Lemma jsstring_eqb_eq (a b : jsstring) : jsstring_eqb a b = true <-> a = b.
Proof.
  unfold jsstring_eqb. destruct (list_eq_dec N.eq_dec a b); split; congruence.
Qed.

(** A handler is its turns, one after the other: the turn that begins it,
    the call to the service, the turn that resumes it. *)
Lemma analyzeStock_turns (env : Environment) (symbol' : jsstring)
    (price' : number) (sector' : jsstring) (w : World) :
  analyzeStock env symbol' price' sector' w
  = let w1 := snd (analyzeStock_begin w) in
    runTurn (AnalysisSettles price'
               (fst (analyzeStockWithGemini env symbol' price' sector' w1)))
            (snd (analyzeStockWithGemini env symbol' price' sector' w1)).
Proof.
  unfold analyzeStock. cbv zeta.
  set (w1 := snd (analyzeStock_begin w)).
  erewrite bind_Return with (w' := w1); [|reflexivity].
  unfold try_catch, bind.
  destruct (analyzeStockWithGemini env symbol' price' sector' w1)
    as [[a|e] w2]; cbn [fst snd runTurn]; [|reflexivity].
  unfold setStateWith. now destruct (reconcile a price' (state w2)).
Qed.

Lemma handleSearchSelect_turns (env : Environment) (ticker : jsstring) (w : World) :
  handleSearchSelect env ticker w
  = let w1 := snd (runTurn (SearchSelectBegins ticker) w) in
    runTurn (AnalysisSettles zero
               (fst (analyzeStockWithGemini env ticker zero UNKNOWN w1)))
            (snd (analyzeStockWithGemini env ticker zero UNKNOWN w1)).
Proof.
  unfold handleSearchSelect.
  erewrite bind_Return; [|apply setState_run].
  rewrite analyzeStock_turns. reflexivity.
Qed.

Lemma handleStockClick_turns (env : Environment) (stock : Stock) (w : World) :
  handleStockClick env stock w
  = let w1 := snd (runTurn (StockClickBegins stock) w) in
    runTurn (AnalysisSettles (price stock)
               (fst (analyzeStockWithGemini env (symbol stock) (price stock)
                       (sector stock) w1)))
            (snd (analyzeStockWithGemini env (symbol stock) (price stock)
                    (sector stock) w1)).
Proof.
  unfold handleStockClick.
  erewrite bind_Return; [|apply setState_run].
  rewrite analyzeStock_turns. reflexivity.
Qed.


(* ================================================================== *)
(** ** The claims about the analysis *)
(* ================================================================== *)

(** C5, as the code has it.  When the analysis of the selected stock
    succeeds, the run commits the analysis, clears [loading] and rewrites
    the selected stock: its price is the extracted price when that is a
    number other than 0, else the known price when that is one, else the
    price the selected stock had; its name is the extracted company name
    unless that is empty; its sector becomes [Analysed] when it was
    [Unknown] and is kept otherwise.  When the selected stock carries the
    known price, as it does when the run was started by a click on it or by
    the search box and nothing came in between, the last fallback is the
    known price itself: then the price is the extracted one or the known
    one, and two zeros give 0. *)
Theorem analyze_success_reconciles :
  forall env symbol' price' sector' w sel a w1,
    selectedStock (state w) = Some sel ->
    analyzeStockWithGemini env symbol' price' sector'
      (snd (analyzeStock_begin w)) = (Return a, w1) ->
    exists w' sel',
      analyzeStock env symbol' price' sector' w = (Return tt, w')
      /\ selectedStock (state w') = Some sel'
      /\ analysis (state w') = Some a
      /\ loading (state w') = false
      /\ price sel'
         = (if truthy (currentPrice a) then currentPrice a
            else if truthy price' then price' else price sel)
      /\ (price sel = price' ->
          price sel' = if truthy (currentPrice a) then currentPrice a else price')
      /\ name sel'
         = (if truthyString (Some (companyName a)) then companyName a
            else name sel)
      /\ (sector sel = UNKNOWN -> sector sel' = ANALYSED)
      /\ (sector sel <> UNKNOWN -> sector sel' = sector sel)
      /\ symbol sel' = symbol sel
      /\ changePercent sel' = changePercent sel
      /\ marketCap sel' = marketCap sel
      /\ reason sel' = reason sel
      /\ score sel' = score sel.
Proof.
  intros env symbol' price' sector' w sel a w1 Hsel E.
  rewrite analyzeStock_turns. cbv zeta. rewrite E. cbn [fst snd runTurn].
  assert (Hw : truthyString (Some (apiKey env)) = true).
  { destruct (truthyString (Some (apiKey env))) eqn:K; [reflexivity|].
    unfold analyzeStockWithGemini in E. rewrite K in E. discriminate. }
  destruct (analyzeStockWithGemini_run env symbol' price' sector'
              (snd (analyzeStock_begin w)) Hw) as (w2 & E2 & (S1 & _) & _).
  rewrite E in E2. injection E2 as _ <-.
  unfold setStateWith, reconcile. rewrite S1.
  cbn [analyzeStock_begin setState snd state selectedStock]. rewrite Hsel.
  do 2 eexists. split; [reflexivity|].
  cbn [state selectedStock analysis loading price name sector symbol
       changePercent marketCap reason score].
  unfold num_or.
  repeat split; try reflexivity.
  - intros <-. now destruct (truthy (currentPrice a)), (truthy (price sel)).
  - intros ->. reflexivity.
  - intros N. destruct (jsstring_eqb (sector sel) UNKNOWN) eqn:B; [|reflexivity].
    apply jsstring_eqb_eq in B. contradiction.
Qed.

Lemma analyze_success_reconciles_witness :
  let env := sampleEnv (lit "key") [answer (lit "context"); answer (lit "{tcs}")] in
  let w := snd (setState (fun prev =>
                  {| stocks := stocks prev;
                     selectedStock := Some (tempStock (lit "TCS"));
                     analysis := analysis prev; loading := loading prev;
                     view := view prev; scanMode := scanMode prev;
                     progress := progress prev;
                     scanStatus := scanStatus prev |}) initialWorld) in
  exists w' sel',
    analyzeStock env (lit "TCS") zero UNKNOWN w = (Return tt, w')
    /\ selectedStock (state w') = Some sel'
    /\ price sel' = zero
    /\ name sel' = lit "Tata Consultancy Services"
    /\ sector sel' = ANALYSED.
Proof.
  intros env w.
  assert (E : analyzeStockWithGemini env (lit "TCS") zero UNKNOWN
                (snd (analyzeStock_begin w))
              = (Return (sampleAnalysis (lit "Tata Consultancy Services")
                           (Finite 0)),
                 snd (analyzeStockWithGemini env (lit "TCS") zero UNKNOWN
                        (snd (analyzeStock_begin w)))))
    by (vm_compute; reflexivity).
  destruct (@analyze_success_reconciles env (lit "TCS") zero UNKNOWN w
              (tempStock (lit "TCS")) _ _ eq_refl E)
    as (w' & sel' & R & Hs & _ & _ & _ & Hp & Hn & Hu & _).
  exists w', sel'. split; [exact R|]. split; [exact Hs|].
  split; [exact (Hp eq_refl)|]. split; [exact Hn|exact (Hu eq_refl)].
Defined.

(** C5, as stated, fails: there is a fallback after the known price.  Two
    analyses overlap: a ticker is picked in the search box, the user goes
    back to the dashboard while the analysis is pending and picks another
    ticker; the first, for TCS, succeeds
    with the price 3500 and rewrites the stock selected by then, the second
    one's; the second, with the known price 0, succeeds with the extracted
    price 0, and the committed price is 3500, not 0.  Then the same on one
    run of [analyzeStock] with the known price 0 and the extracted price 0
    that begins in a state whose selected stock has the price 3500. *)
Lemma zero_prices_commit_stale_price :
  let a1 := sampleAnalysis (lit "Tata Consultancy Services") (Finite 3500) in
  let a2 := sampleAnalysis (lit "Infosys") (Finite 0) in
  let w := runTurns
             [ SearchSelectBegins (lit "TCS");
               BackClicked;
               SearchSelectBegins (lit "INFY");
               AnalysisSettles zero (Return a1);
               AnalysisSettles zero (Return a2) ]
             initialWorld in
  let env := sampleEnv (lit "key") [answer (lit "context"); answer (lit "{tcs}")] in
  let w0 := runTurns [ SearchSelectBegins (lit "TCS");
                       AnalysisSettles zero (Return a1) ] initialWorld in
  (currentPrice a2 = zero
   /\ option_map price (selectedStock (state w)) = Some (Finite 3500)
   /\ option_map price (selectedStock (state w)) <> Some zero
   /\ crashed w = None)
  /\ (option_map currentPrice
        (analysis (state (snd (analyzeStock env (lit "INFY") zero UNKNOWN w0))))
      = Some zero
      /\ option_map price
           (selectedStock
              (state (snd (analyzeStock env (lit "INFY") zero UNKNOWN w0))))
         = Some (Finite 3500)).
Proof.
  vm_compute. repeat split; discriminate.
Qed.

(* ================================================================== *)
(** * More of the code *)
(* ================================================================== *)

(** ** The parser: what every parsed stock satisfies *)

Lemma split_chars (sep : char16) (s p : jsstring) (c : char16) :
  In p (split sep s) -> In c p -> In c s /\ c <> sep.
Proof.
  revert p. induction s as [|c0 s IH]; intros p Hp Hc.
  - simpl in Hp. destruct Hp as [<-|[]]. destruct Hc.
  - simpl in Hp. destruct (N.eqb_spec c0 sep) as [E|E].
    + destruct Hp as [<-|Hp]; [destruct Hc|].
      destruct (IH p Hp Hc). split; [now right|assumption].
    + destruct (split sep s) as [|q qs] eqn:Q; simpl in Hp.
      * destruct Hp as [<-|[]]. destruct Hc as [<-|[]]. split; [now left|exact E].
      * destruct Hp as [<-|Hp].
        -- destruct Hc as [<-|Hc]; [split; [now left|exact E]|].
           destruct (IH q (or_introl eq_refl) Hc). split; [now right|assumption].
        -- destruct (IH p (or_intror Hp) Hc). split; [now right|assumption].
Qed.

Lemma trimStart_In (s : jsstring) (c : char16) : In c (trimStart s) -> In c s.
Proof.
  induction s as [|a s IH]; simpl; [auto|].
  destruct (isWhiteSpace a); [intros H; right; now apply IH|auto].
Qed.

Lemma trim_In (s : jsstring) (c : char16) : In c (trim s) -> In c s.
Proof.
  unfold trim, trimEnd. intros H. apply in_rev in H.
  apply trimStart_In in H. apply in_rev in H. now apply trimStart_In.
Qed.

Lemma clean_cleanField (o : option jsstring) :
  (forall c, In c (orEmpty o) -> c <> COMMA /\ c <> NEWLINE) ->
  cleanField (clean o).
Proof.
  intros H. destruct o as [p|]; [|split; [intros c []|split; exact I]].
  rewrite clean_Some. destruct (trim_Stripped p) as (pre & post & _ & _ & _ & S & R).
  split; [|split; assumption].
  intros c Hc. apply trim_In in Hc. unfold replace_quotes in Hc.
  apply filter_In in Hc. destruct Hc as [Hc Q].
  destruct (H c Hc) as [H1 H2]. repeat split; try assumption.
  now destruct (isQuote c).
Qed.

Lemma In_parseStockCSV (text : jsstring) (s : Stock) :
  In s (parseStockCSV text) ->
  exists line, In line (split NEWLINE text) /\ parseLine line = [s].
Proof.
  rewrite parseStockCSV_lines. intros H. apply in_flat_map in H.
  destruct H as (line & Hl & Hs). exists line. split; [exact Hl|].
  pose proof (parseLine_at_most_one line) as L.
  destruct (parseLine line) as [|a [|b l]].
  - destruct Hs.
  - destruct Hs as [<-|[]]. reflexivity.
  - simpl in L. lia.
Qed.

Lemma field_chars (text line : jsstring) (i : nat) (c : char16) :
  In line (split NEWLINE text) ->
  In c (orEmpty (nth_error (split COMMA line) i)) ->
  c <> COMMA /\ c <> NEWLINE.
Proof.
  intros Hl Hc. destruct (nth_error (split COMMA line) i) as [p|] eqn:E;
    [|destruct Hc].
  apply nth_error_In in E. destruct (split_chars _ _ _ _ E Hc) as [Hin Hcomma].
  split; [exact Hcomma|]. simpl in Hc.
  assert (Hany : exists q, In q (split NEWLINE text) /\ In c q)
    by (exists line; split; assumption).
  destruct Hany as (q & Hq & Hcq). now destruct (split_chars _ _ _ _ Hq Hcq).
Qed.

(** X1.  Every stock the parser returns has a price and a change that are
    numbers, a score that is there (never [undefined], though it may be
    [NaN]), and text fields (symbol, name, sector, market capitalisation, and
    the reason when there is one) with no comma, no line feed, no quote, and
    no white space at either end. *)
Theorem parsed_stocks_are_well_formed :
  forall text s,
    In s (parseStockCSV text) ->
    isNaN (price s) = false
    /\ isNaN (changePercent s) = false
    /\ (exists x, score s = Some x)
    /\ cleanField (symbol s)
    /\ cleanField (name s)
    /\ cleanField (sector s)
    /\ cleanField (marketCap s)
    /\ (forall r, reason s = Some r -> cleanField r).
Proof.
  intros text s H. apply In_parseStockCSV in H. destruct H as (line & Hl & Hs).
  pose proof (parseLine_kept _ Hs) as K. cbv zeta in K.
  destruct K as (_ & P & H0 & H1 & H2 & H3 & H4 & H5 & H6 & H7).
  assert (C : forall i, cleanField (clean (nth_error (split COMMA line) i))).
  { intros i. apply clean_cleanField. intros c. now apply field_chars with text. }
  rewrite H0, H1, H2, H3, H4, H5, H6, H7.
  split; [exact P|]. split.
  { destruct (isNaN (parseFloat (clean (nth_error (split COMMA line) 4)))) eqn:E;
      [reflexivity|exact E]. }
  split.
  { eexists. reflexivity. }
  repeat (split; [apply C|]).
  intros r. destruct (truthyString (nth_error (split COMMA line) 7)).
  - intros E.
    replace r with (clean (nth_error (split COMMA line) 7)) by congruence.
    apply C.
  - destruct (truthyString (nth_error (split COMMA line) 6)
              && isNaN (parseInt (orEmpty (nth_error (split COMMA line) 6)))).
    + intros E.
      replace r with (clean (nth_error (split COMMA line) 6)) by congruence.
      apply C.
    + discriminate.
Qed.

Lemma parsed_stocks_are_well_formed_witness :
  exists s,
    In s (parseStockCSV (lit "x" ++ NEWLINE :: lit " 'A' ,B,C,1,n/a,3T,7x"))
    /\ symbol s = lit "A"
    /\ cleanField (symbol s)
    /\ isNaN (changePercent s) = false.
Proof.
  assert (H : In {| symbol := lit "A"; name := lit "B"; sector := lit "C";
                    price := Finite 1; changePercent := zero;
                    marketCap := lit "3T"; reason := None;
                    score := Some (Finite 7) |}
                 (parseStockCSV (lit "x" ++ NEWLINE :: lit " 'A' ,B,C,1,n/a,3T,7x")))
    by (vm_compute; left; reflexivity).
  eexists. split; [exact H|]. split; [reflexivity|].
  destruct (@parsed_stocks_are_well_formed _ _ H) as (_ & Hc & _ & Hs & _).
  split; [exact Hs|exact Hc].
Defined.

(** X2.  The parser reads the first eight fields of a line and nothing
    after them: what follows a further comma changes nothing, so a reason
    that holds a comma is cut at that comma. *)
Theorem parseLine_reads_eight_fields :
  forall line extra,
    8 <= List.length (split COMMA line) ->
    parseLine (line ++ COMMA :: extra) = parseLine line.
Proof.
  intros line extra L. unfold parseLine, parseStockCSV_step. cbv zeta.
  rewrite split_app. rewrite length_app.
  rewrite !nth_error_app1 by lia.
  destruct (Nat.leb_spec 6 (List.length (split COMMA line))); [|lia].
  destruct (Nat.leb_spec 6 (List.length (split COMMA line)
                            + List.length (split COMMA extra))); [|lia].
  reflexivity.
Qed.

Lemma parseLine_reads_eight_fields_witness :
  map reason
    (parseLine (lit "HDFCBANK,HDFC Bank,Financials,1450.00,-0.5,11.5T,92,Leader"
                ++ COMMA :: lit " at a low valuation."))
  = [Some (lit "Leader")].
Proof.
  rewrite (@parseLine_reads_eight_fields
             (lit "HDFCBANK,HDFC Bank,Financials,1450.00,-0.5,11.5T,92,Leader")
             (lit " at a low valuation.")).
  - vm_compute. reflexivity.
  - vm_compute. lia.
Defined.

(** ** The service layer: sources and requests *)

Lemma string_or_not_empty (o : option jsstring) (d : jsstring) :
  d <> [] -> string_or o d <> [].
Proof.
  unfold string_or. destruct o as [[|c s]|]; simpl; try exact (fun H => H).
  intros _. discriminate.
Qed.

Lemma extractSources_not_empty (chunks : list GroundingChunk) :
  Forall (fun src => title src <> [] /\ uri src <> []) (extractSources chunks).
Proof.
  unfold extractSources. apply Forall_map. apply Forall_forall. intros w _.
  cbn [title uri]. split; apply string_or_not_empty; discriminate.
Qed.

Lemma extractSources_length (chunks : list GroundingChunk) :
  List.length (extractSources chunks)
  = List.length (filter (fun chunk => match web chunk with
                                      | Some _ => true
                                      | None => false
                                      end) chunks).
Proof.
  unfold extractSources. rewrite length_map.
  induction chunks as [|c chunks IH]; [reflexivity|].
  cbn [flat_map filter]. destruct (web c); simpl; now rewrite IH.
Qed.

Lemma extractResult_sources (env : Environment) (o : Outcome)
    (sources' : list Source) (a : StockAnalysis) :
  extractResult env o sources' = Return a -> sources a = sources'.
Proof.
  unfold extractResult. destruct o as [e|r]; [discriminate|].
  destruct (negb (truthyString (text r))); [discriminate|].
  destruct (JSON_parse env (orEmpty (text r))) as [[a0|]|e0];
    [|discriminate|discriminate].
  intros H. now injection H as <-.
Qed.

Lemma analyzeStockWithGemini_settles (env : Environment) (symbol' : jsstring)
    (price' : number) (sector' : jsstring) (w : World) :
  exists r w',
    analyzeStockWithGemini env symbol' price' sector' w = (r, w')
    /\ sameComponent w w'.
Proof.
  destruct (truthyString (Some (apiKey env))) eqn:K.
  - destruct (analyzeStockWithGemini_run env symbol' price' sector' w K)
      as (w' & E & S & _).
    now exists (extractResult env
                  (extractOutcome env symbol' price' sector' (requests w))
                  (snd (gathered env symbol' price' sector' (requests w)))), w'.
  - exists (Throw (MkError (lit "API Key is missing"))), w.
    unfold analyzeStockWithGemini. rewrite K. split; [reflexivity|].
    apply sameComponent_refl.
Qed.

(** X3.  The sources of an analysis the service layer returns come from
    the grounding chunks of the gather answer: at most one per chunk, one
    for each chunk that has a web part, and each with a title and a link
    that are not empty (the defaults [Source] and [#] stand in for what is
    missing or empty). *)
Theorem returned_sources_are_well_formed :
  forall env symbol' price' sector' w a w',
    analyzeStockWithGemini env symbol' price' sector' w = (Return a, w') ->
    Forall (fun src => title src <> [] /\ uri src <> []) (sources a)
    /\ (forall e,
          generateContent env (requests w)
            (gatherRequest env symbol' price' sector') = Rejected e ->
          sources a = [])
    /\ (forall r,
          generateContent env (requests w)
            (gatherRequest env symbol' price' sector') = Resolved r ->
          List.length (sources a)
          = List.length (filter (fun chunk => match web chunk with
                                              | Some _ => true
                                              | None => false
                                              end)
                           (chunks_or_empty (groundingChunks r)))
          /\ List.length (sources a)
             <= List.length (chunks_or_empty (groundingChunks r))).
Proof.
  intros env symbol' price' sector' w a w' H.
  assert (K : truthyString (Some (apiKey env)) = true).
  { destruct (truthyString (Some (apiKey env))) eqn:K; [reflexivity|].
    unfold analyzeStockWithGemini in H. rewrite K in H. discriminate. }
  destruct (analyzeStockWithGemini_run env symbol' price' sector' w K)
    as (w1 & E & _ & _).
  rewrite E in H. injection H as H _. apply extractResult_sources in H.
  rewrite H. unfold gathered.
  destruct (generateContent env (requests w)
              (gatherRequest env symbol' price' sector')) as [e|r].
  - split; [constructor|]. split; [reflexivity|discriminate].
  - cbn [snd]. split; [apply extractSources_not_empty|].
    split; [discriminate|]. intros r0 R. injection R as <-.
    split; [apply extractSources_length|].
    rewrite extractSources_length. apply filter_length_le.
Qed.

Lemma returned_sources_are_well_formed_witness :
  let chunks := [ {| web := Some {| web_title := None;
                                    web_uri := Some (lit "https://nse") |} |};
                  {| web := None |};
                  {| web := Some {| web_title := Some [];
                                    web_uri := None |} |} ] in
  let env := sampleEnv (lit "key")
               [ Resolved {| text := Some (lit "context");
                             groundingChunks := Some chunks |};
                 answer (lit "{tcs}") ] in
  exists a,
    fst (analyzeStockWithGemini env (lit "TCS") zero UNKNOWN initialWorld)
    = Return a
    /\ List.length (sources a) = 2
    /\ Forall (fun src => title src <> [] /\ uri src <> []) (sources a).
Proof.
  intros chunks env.
  destruct (analyzeStockWithGemini env (lit "TCS") zero UNKNOWN initialWorld)
    as [r w'] eqn:E.
  assert (Hr : exists a, r = Return a /\ List.length (sources a) = 2).
  { assert (E' : fst (analyzeStockWithGemini env (lit "TCS") zero UNKNOWN
                        initialWorld) = r) by now rewrite E.
    vm_compute in E'. subst r. eexists. split; reflexivity. }
  destruct Hr as (a & -> & L). exists a. split; [reflexivity|].
  split; [exact L|].
  exact (proj1 (@returned_sources_are_well_formed env (lit "TCS") zero UNKNOWN
                  initialWorld a w' E)).
Defined.

(** X4.  With a key, an analysis sends two requests whatever the service
    answers: the gather request, then the extract request built on what the
    gather phase left (its text, a fixed sentence when the text is empty,
    another when the call failed).  It touches nothing else of the world,
    and it returns an analysis exactly when the extract call is answered by
    a text that is not empty and that [JSON.parse] turns into an object; the
    analysis is then that object with the sources of the gather phase.  It
    throws when the call is rejected, when the text is missing or empty,
    when [JSON.parse] throws, and when [JSON.parse] gives [null] or a
    primitive, on which the assignment of the sources throws. *)
Theorem analysis_sends_two_requests :
  forall env symbol' price' sector' w,
    truthyString (Some (apiKey env)) = true ->
    exists r w',
      analyzeStockWithGemini env symbol' price' sector' w = (r, w')
      /\ requests w'
         = requests w ++ [gatherRequest env symbol' price' sector';
                          extractRequestOf env symbol' price' sector' (requests w)]
      /\ sameComponent w w'
      /\ ((exists a, r = Return a)
          <-> extractFails env
                (extractOutcome env symbol' price' sector' (requests w)) = false)
      /\ (forall a,
            r = Return a
            <-> exists response parsed,
                  extractOutcome env symbol' price' sector' (requests w)
                  = Resolved response
                  /\ truthyString (text response) = true
                  /\ JSON_parse env (orEmpty (text response))
                     = Return (ParsedObject parsed)
                  /\ a = set_sources parsed
                           (snd (gathered env symbol' price' sector'
                                   (requests w))))
      /\ (forall response,
            extractOutcome env symbol' price' sector' (requests w)
            = Resolved response ->
            truthyString (text response) = true ->
            JSON_parse env (orEmpty (text response)) = Return ParsedPrimitive ->
            r = Throw NOT_AN_OBJECT).
Proof.
  intros env symbol' price' sector' w K.
  destruct (analyzeStockWithGemini_run env symbol' price' sector' w K)
    as (w' & E & S & R).
  do 2 eexists. split; [exact E|]. split; [exact R|]. split; [exact S|].
  unfold extractFails, extractResult.
  destruct (extractOutcome env symbol' price' sector' (requests w)) as [e|r].
  - split; [split; [intros [a Ha]; discriminate|discriminate]|].
    split; [|discriminate].
    intros a. split; [discriminate|]. now intros (x & y & H & _).
  - destruct (truthyString (text r)) eqn:T; cbn [negb orb]; cbv beta iota.
    + destruct (JSON_parse env (orEmpty (text r))) as [[a0|]|e0] eqn:J.
      * split; [split; [reflexivity|intros _; eexists; reflexivity]|].
        split; [|intros x H; injection H as <-; rewrite J; discriminate].
        intros a. split.
        -- intros H. injection H as <-. exists r, a0. repeat split; assumption.
        -- intros (x & y & H & _ & Jx & ->). injection H as <-.
           rewrite J in Jx. injection Jx as <-. reflexivity.
      * split; [split; [intros [a' Ha]; discriminate|discriminate]|].
        split; [|reflexivity].
        intros a. split; [discriminate|].
        intros (x & y & H & _ & Jx & _). injection H as <-.
        rewrite J in Jx. discriminate.
      * split; [split; [intros [a' Ha]; discriminate|discriminate]|].
        split; [|intros x H; injection H as <-; rewrite J; discriminate].
        intros a. split; [discriminate|].
        intros (x & y & H & _ & Jx & _). injection H as <-.
        rewrite J in Jx. discriminate.
    + split; [split; [intros [a Ha]; discriminate|discriminate]|].
      split; [|intros x H; injection H as <-; rewrite T; discriminate].
      intros a. split; [discriminate|].
      intros (x & y & H & Tx & _). injection H as <-.
      rewrite T in Tx. discriminate.
Qed.

Lemma analysis_sends_two_requests_witness :
  let env := sampleEnv (lit "key") [answer []; answer (lit "{bad")] in
  let env' := sampleEnv (lit "key") [answer []; answer (lit "null")] in
  (exists e w',
     analyzeStockWithGemini env (lit "TCS") zero UNKNOWN initialWorld
     = (Throw e, w')
     /\ requests w'
        = [gatherRequest env (lit "TCS") zero UNKNOWN;
           extractRequest env (lit "TCS") zero NO_SEARCH_DATA])
  /\ fst (analyzeStockWithGemini env' (lit "TCS") zero UNKNOWN initialWorld)
     = Throw NOT_AN_OBJECT.
Proof.
  intros env env'. split.
  - destruct (@analysis_sends_two_requests env (lit "TCS") zero UNKNOWN
                initialWorld eq_refl) as (r & w' & E & R & _ & I & _).
    destruct r as [a|e].
    + exfalso. assert (F : extractFails env
                             (extractOutcome env (lit "TCS") zero UNKNOWN
                                (requests initialWorld)) = true)
        by (vm_compute; reflexivity).
      rewrite (proj1 I (ex_intro _ a eq_refl)) in F. discriminate.
    + exists e, w'. split; [exact E|]. exact R.
  - destruct (@analysis_sends_two_requests env' (lit "TCS") zero UNKNOWN
                initialWorld eq_refl) as (r & w' & E & _ & _ & _ & _ & N).
    rewrite E. cbn [fst].
    assert (O : extractOutcome env' (lit "TCS") zero UNKNOWN
                  (requests initialWorld)
                = Resolved {| text := Some (lit "null");
                              groundingChunks := None |})
      by (vm_compute; reflexivity).
    apply (N _ O); vm_compute; reflexivity.
Defined.

(** ** The scan: requests, untouched fields, and the cut at twenty *)

Lemma scanQuery_requests (env : Environment) (sector' : jsstring)
    (sent : list Request) :
  snd (scanQuery env sector' sent)
  = if truthyString (Some (apiKey env))
    then sent ++ [scanRequest env sector'] else sent.
Proof.
  unfold scanQuery. destruct (truthyString (Some (apiKey env))); cbn [negb].
  - now destruct (generateContent env sent (scanRequest env sector')).
  - reflexivity.
Qed.

Lemma scanLoop_requests (env : Environment) (rest : list jsstring) :
  forall (i : nat) (acc : list Stock) (w : World),
    requests (snd (scanLoop env i rest acc w))
    = if truthyString (Some (apiKey env))
      then requests w ++ map (scanRequest env) rest else requests w.
Proof.
  induction rest as [|sector' rest IH]; intros i acc w.
  - cbn [scanLoop]. unfold ret. cbn [snd map]. rewrite app_nil_r.
    now destruct (truthyString (Some (apiKey env))).
  - cbn [scanLoop].
    erewrite bind_Return; [|apply setState_run].
    match goal with
    | |- context [committed ?s w] => set (s1 := s)
    end.
    destruct (scanMarketSector_run env sector' (committed s1 w))
      as (w2 & E & _ & R).
    erewrite bind_Return; [|exact E].
    rewrite IH, R. cbn [committed requests]. rewrite scanQuery_requests.
    destruct (truthyString (Some (apiKey env))); [|reflexivity].
    cbn [map]. now rewrite <- app_assoc.
Qed.

(** The fields a scan does not write. *)
Lemma handleScanForValue_commits (env : Environment) (w : World) :
  exists w' new,
    handleScanForValue env w = (Return tt, w')
    /\ commits w' = commits w ++ new
    /\ state w' = last new (state w)
    /\ Forall (fun c => view c = view (state w)
                        /\ selectedStock c = selectedStock (state w)
                        /\ analysis c = analysis (state w)) new
    /\ requests w'
       = (if truthyString (Some (apiKey env))
          then requests w ++ map (scanRequest env) sectors else requests w).
Proof.
  unfold handleScanForValue.
  erewrite bind_Return; [|apply setState_run].
  match goal with
  | |- context [committed ?s w] => set (s0 := s)
  end.
  destruct (scanLoop_run env sectors 0 [] (committed s0 w))
    as (w1 & cs & E & C & _ & F & L & _ & _).
  pose proof (scanLoop_requests env sectors 0 [] (committed s0 w)) as R.
  rewrite E in R. cbn [snd committed requests] in R.
  cbn [committed state commits] in C, F, L.
  erewrite try_catch_Return;
    [|erewrite bind_Return; [apply setState_run|exact E]].
  match goal with
  | |- context [committed ?s w1] => set (sf := s)
  end.
  exists (committed sf w1), (s0 :: cs ++ [sf]).
  split; [reflexivity|]. cbn [committed state commits requests].
  split.
  { rewrite C. rewrite <- (app_assoc (commits w) [s0] cs).
    rewrite <- (app_assoc (commits w) ([s0] ++ cs) [sf]). reflexivity. }
  split.
  { change (s0 :: cs ++ [sf]) with ((s0 :: cs) ++ [sf]).
    now rewrite last_last. }
  split; [|exact R].
  assert (Fs : sameButProgress s0 (state w1))
    by (rewrite L; now apply last_sameButProgress).
  constructor; [repeat split|].
  apply Forall_app. split.
  - revert F. apply Forall_impl.
    intros c (_ & h2 & h3 & _ & h5 & _). repeat split; assumption.
  - constructor; [|constructor].
    destruct Fs as (_ & h2 & h3 & _ & h5 & _). unfold sf. cbn. repeat split;
      assumption.
Qed.

(** X5.  A scan sends one request per sector, in the order of the sectors
    and whatever the answers are, when a key is configured, and none when
    there is no key; it sends nothing else. *)
Theorem scan_sends_one_request_per_sector :
  forall env w,
    requests (snd (handleScanForValue env w))
    = (if truthyString (Some (apiKey env))
       then requests w ++ map (scanRequest env) sectors
       else requests w)
    /\ List.length (map (scanRequest env) sectors) = 5.
Proof.
  intros env w.
  destruct (handleScanForValue_commits env w) as (w' & new & E & _ & _ & _ & R).
  rewrite E. split; [exact R|reflexivity].
Qed.

(** X6.  A scan that runs from its start to its end with no other handler
    committing in between never leaves the list view and never touches the
    selected stock or the analysis: every state it commits has the view, the
    selected stock and the analysis of the state it began in. *)
Theorem scan_keeps_view_and_selection :
  forall env w,
    exists w' new,
      handleScanForValue env w = (Return tt, w')
      /\ commits w' = commits w ++ new
      /\ state w' = last new (state w)
      /\ Forall (fun c => view c = view (state w)
                          /\ selectedStock c = selectedStock (state w)
                          /\ analysis c = analysis (state w)) new
      /\ crashed w' = crashed w.
Proof.
  intros env w.
  destruct (handleScanForValue_commits env w) as (w' & new & E & C & L & F & _).
  destruct (handleScanForValue_run env w)
    as (w2 & _ & _ & _ & E2 & _ & _ & _ & _ & _ & _ & _ & _ & _ & _ & Cr).
  rewrite E in E2. injection E2 as <-.
  exists w', new. repeat split; assumption.
Qed.

Lemma StronglySorted_app_cross {A} (R : A -> A -> Prop) (l1 l2 : list A) :
  StronglySorted R (l1 ++ l2) ->
  forall a b, In a l1 -> In b l2 -> R a b.
Proof.
  induction l1 as [|x l1 IH]; intros S a b Ha Hb; [destruct Ha|].
  inversion S as [|? ? S' F]; subst. destruct Ha as [<-|Ha].
  - rewrite Forall_forall in F. apply F, in_or_app. now right.
  - now apply IH.
Qed.

(** X7.  The list a scan commits holds 20 stocks, or all the picks when
    there are fewer; the picks it leaves out, with the ones it keeps, make up
    all the picks; and no stock that is left out has a higher score than a
    stock that is kept.  The score is the value of the [score] field when
    that is a number other than 0, and 0 otherwise; higher is meant in the
    order of the numbers, so that of a kept stock with the integer score [m]
    and a stock left out with the integer score [n], [n <= m]. *)
Theorem scan_keeps_the_best_twenty :
  forall env w,
    let allPicks := List.concat (sectorResults env sectors (requests w)) in
    let kept := stocks (state (snd (handleScanForValue env w))) in
    exists leftOut,
      Permutation (kept ++ leftOut) allPicks
      /\ List.length kept = Nat.min 20 (List.length allPicks)
      /\ (forall k d, In k kept -> In d leftOut -> scoreNotBelow k d = true)
      /\ (forall k d,
            In k kept -> In d leftOut ->
            numberLe (scoreOrZero d) (scoreOrZero k))
      /\ (forall k d m n,
            In k kept -> In d leftOut ->
            score k = Some (ofZ m) -> score d = Some (ofZ n) -> (n <= m)%Z)
      /\ (forall s, score s = None \/ score s = Some NaN -> scoreOrZero s = zero)
      /\ (forall s q,
            score s = Some (Finite q) -> ~ (q == 0)%Q -> scoreOrZero s = Finite q)
      /\ (forall s q,
            score s = Some (Finite q) -> (q == 0)%Q -> scoreOrZero s = zero)
      /\ (forall s b, score s = Some (Infinity b) -> scoreOrZero s = Infinity b).
Proof.
  intros env w allPicks kept.
  destruct (handleScanForValue_run env w)
    as (w' & reset & perSector & final & E & _ & St & _ & _ & _ & Sk & _).
  assert (Hk : kept = firstn 20 (Array_sort byScoreDescending allPicks)).
  { unfold kept. rewrite E. cbn [snd]. rewrite St. exact Sk. }
  pose proof (@Array_sort_perm Stock byScoreDescending scoreNotBelow
                byScoreDescending_order allPicks) as P.
  pose proof (@Array_sort_sorted Stock byScoreDescending scoreNotBelow
                byScoreDescending_order scoreNotBelow_total
                scoreNotBelow_trans allPicks) as S.
  exists (skipn 20 (Array_sort byScoreDescending allPicks)).
  rewrite Hk. split; [now rewrite firstn_skipn|]. split.
  - rewrite length_firstn. now rewrite (Permutation_length P).
  - rewrite <- (firstn_skipn 20 (Array_sort byScoreDescending allPicks)) in S.
    pose proof (fun k d => @StronglySorted_app_cross _ _ _ _ S k d) as X.
    split; [exact X|].
    split; [intros k d Hk' Hd; now apply scoreNotBelow_numberLe, X|].
    split.
    { intros k d m n Hk' Hd Sk' Sd.
      now apply (scoreNotBelow_integers _ _ Sk' Sd), X. }
    split; [apply score_missing_is_zero|].
    split; [apply scoreOrZero_finite|].
    split; [apply scoreOrZero_zero|apply scoreOrZero_infinite].
Qed.

(** ** The refresh *)

Lemma fetchMarketSnapshot_requests (env : Environment) (w : World) :
  requests (snd (fetchMarketSnapshot env w))
  = if truthyString (Some (apiKey env))
    then requests w ++ [snapshotRequest] else requests w.
Proof.
  unfold fetchMarketSnapshot.
  destruct (truthyString (Some (apiKey env))); cbn [negb]; cbv beta iota;
    [|reflexivity].
  unfold try_catch, bind, call, ret.
  now destruct (generateContent env (requests w) snapshotRequest).
Qed.

Lemma loadMarketData_run :
  forall env w,
    exists w' loadingState,
      loadMarketData env w = (Return tt, w')
      /\ commits w' = commits w ++ [loadingState; state w']
      /\ (loading loadingState = true /\ scanMode loadingState = false
          /\ progress loadingState = zero
          /\ stocks loadingState = stocks (state w))
      /\ (loading (state w') = false /\ scanMode (state w') = false)
      /\ (truthyString (Some (apiKey env)) = false -> stocks (state w') = [])
      /\ (forall e, generateContent env (requests w) snapshotRequest = Rejected e ->
          stocks (state w') = [])
      /\ (forall r, truthyString (Some (apiKey env)) = true ->
          generateContent env (requests w) snapshotRequest = Resolved r ->
          stocks (state w') = parseStockCSV (string_or (text r) []))
      /\ (view (state w') = view (state w)
          /\ selectedStock (state w') = selectedStock (state w)
          /\ analysis (state w') = analysis (state w))
      /\ alerts w' = alerts w
      /\ crashed w' = crashed w
      /\ requests w'
         = (if truthyString (Some (apiKey env))
            then requests w ++ [snapshotRequest] else requests w).
Proof.
  intros env w. unfold loadMarketData.
  erewrite bind_Return; [|apply setState_run].
  match goal with
  | |- context [committed ?s w] => set (s1 := s)
  end.
  destruct (fetchMarketSnapshot_run env (committed s1 w))
    as (picks & w2 & E & (S1 & S2 & S3 & S4) & Knone & Rej & Res).
  pose proof (fetchMarketSnapshot_requests env (committed s1 w)) as R.
  rewrite E in R. cbn [snd committed requests] in R, Rej, Res.
  cbn [committed state commits alerts crashed] in S1, S2, S3, S4.
  erewrite try_catch_Return;
    [|erewrite bind_Return; [apply setState_run|exact E]].
  do 2 eexists. split; [reflexivity|].
  cbn [committed state commits alerts crashed requests].
  rewrite S1, S2, S3, S4. unfold s1.
  cbn [stocks loading scanMode progress view selectedStock analysis].
  split; [now rewrite <- app_assoc|].
  split; [repeat split|]. split; [repeat split|].
  split; [intros K; now destruct (Knone K)|].
  split; [exact Rej|]. split; [exact Res|].
  split; [repeat split|]. split; [reflexivity|]. split; [reflexivity|exact R].
Qed.

(** X8.  A refresh never throws and shows no alert.  It commits two
    states: one that is loading, out of scan mode, with progress 0; then one
    that is not loading and whose list is what the snapshot query returned.
    That list replaces the one shown before, and it is empty when the key is
    missing or the call is rejected: the list on screen is then lost, and
    the [catch] block that would have kept it is never entered.  The view,
    the selected stock and the analysis are left alone; one request is sent
    when there is a key, none otherwise. *)
Theorem refresh_replaces_the_list :
  forall env w,
    exists w' loadingState,
      loadMarketData env w = (Return tt, w')
      /\ commits w' = commits w ++ [loadingState; state w']
      /\ (loading loadingState = true /\ scanMode loadingState = false
          /\ progress loadingState = zero
          /\ stocks loadingState = stocks (state w))
      /\ (loading (state w') = false /\ scanMode (state w') = false)
      /\ (truthyString (Some (apiKey env)) = false -> stocks (state w') = [])
      /\ (forall e, generateContent env (requests w) snapshotRequest = Rejected e ->
          stocks (state w') = [])
      /\ (forall r, truthyString (Some (apiKey env)) = true ->
          generateContent env (requests w) snapshotRequest = Resolved r ->
          stocks (state w') = parseStockCSV (string_or (text r) []))
      /\ (view (state w') = view (state w)
          /\ selectedStock (state w') = selectedStock (state w)
          /\ analysis (state w') = analysis (state w))
      /\ alerts w' = alerts w
      /\ crashed w' = crashed w
      /\ requests w'
         = (if truthyString (Some (apiKey env))
            then requests w ++ [snapshotRequest] else requests w).
Proof.
  intros env w.
  destruct (loadMarketData_run env w) as (w' & loadingState & H).
  exists w', loadingState. exact H.
Qed.


(** ** Selecting a stock *)

Lemma settle_success (w : World) (price' : number) (a : StockAnalysis)
    (sel : Stock) :
  selectedStock (state w) = Some sel ->
  runTurn (AnalysisSettles price' (Return a)) w
  = (Return tt,
     committed
       {| stocks := stocks (state w);
          selectedStock :=
            Some {| symbol := symbol sel;
                    name := if truthyString (Some (companyName a))
                            then companyName a else name sel;
                    sector := if jsstring_eqb (sector sel) UNKNOWN
                              then ANALYSED else sector sel;
                    price := num_or (currentPrice a)
                                    (num_or price' (price sel));
                    changePercent := changePercent sel;
                    marketCap := marketCap sel;
                    reason := reason sel;
                    score := score sel |};
          analysis := Some a;
          loading := false;
          view := view (state w);
          scanMode := scanMode (state w);
          progress := progress (state w);
          scanStatus := scanStatus (state w) |} w).
Proof.
  intros H. cbn [runTurn]. unfold setStateWith, reconcile. now rewrite H.
Qed.

Lemma settled_world (env : Environment) (symbol' : jsstring) (price' : number)
    (sector' : jsstring) (w w1 : World) (r : Result StockAnalysis) :
  analyzeStockWithGemini env symbol' price' sector' w = (r, w1) ->
  sameComponent w w1.
Proof.
  intros H.
  destruct (analyzeStockWithGemini_settles env symbol' price' sector' w)
    as (r' & w' & E & S).
  rewrite H in E. now injection E as _ <-.
Qed.

Lemma num_or_same (x p : number) :
  num_or x (num_or p p) = if truthy x then x else p.
Proof. unfold num_or. now destruct (truthy x), (truthy p). Qed.

(** X9.  When the analysis of a ticker picked in the search box succeeds,
    and no other handler commits between the pick and the success, the page
    is left on the analysis screen, not loading, with the analysis
    and with a selected stock made of the ticker as symbol, the extracted
    company name (the ticker when that is empty), the sector [Analysed], the
    extracted price when it is a number other than 0 and the price 0
    otherwise, no change, no market capitalisation, no score, no reason. *)
Theorem search_select_success :
  forall env ticker w a w1,
    analyzeStockWithGemini env ticker zero UNKNOWN
      (snd (runTurn (SearchSelectBegins ticker) w)) = (Return a, w1) ->
    exists w',
      handleSearchSelect env ticker w = (Return tt, w')
      /\ selectedStock (state w')
         = Some {| symbol := ticker;
                   name := if truthyString (Some (companyName a))
                           then companyName a else ticker;
                   sector := ANALYSED;
                   price := if truthy (currentPrice a)
                            then currentPrice a else zero;
                   changePercent := zero;
                   marketCap := [];
                   reason := None;
                   score := None |}
      /\ analysis (state w') = Some a
      /\ view (state w') = detail
      /\ loading (state w') = false
      /\ (exists stock, screen (state w') = AnalysisScreen stock a
                        /\ selectedStock (state w') = Some stock)
      /\ alerts w' = alerts w
      /\ crashed w' = crashed w.
Proof.
  intros env ticker w a w1 H.
  rewrite handleSearchSelect_turns. cbv zeta. rewrite H. cbn [fst snd].
  destruct (settled_world _ _ _ _ _ H) as (S1 & S2 & S3 & S4).
  assert (Hsel : selectedStock (state w1) = Some (tempStock ticker))
    by (rewrite S1; reflexivity).
  rewrite (settle_success _ _ _ Hsel).
  eexists. split; [reflexivity|].
  cbn [committed state alerts crashed selectedStock analysis view loading].
  rewrite S1, S3, S4. cbn.
  unfold num_or. repeat split; try reflexivity.
  eexists. split; reflexivity.
Qed.

Lemma search_select_success_witness :
  let env := sampleEnv (lit "key") [answer (lit "context"); answer (lit "{tcs}")] in
  exists w',
    handleSearchSelect env (lit "TCS") initialWorld = (Return tt, w')
    /\ option_map price (selectedStock (state w')) = Some zero
    /\ option_map sector (selectedStock (state w')) = Some ANALYSED
    /\ view (state w') = detail.
Proof.
  intros env.
  assert (E : analyzeStockWithGemini env (lit "TCS") zero UNKNOWN
                (snd (runTurn (SearchSelectBegins (lit "TCS")) initialWorld))
              = (Return (sampleAnalysis (lit "Tata Consultancy Services")
                           (Finite 0)),
                 snd (analyzeStockWithGemini env (lit "TCS") zero UNKNOWN
                        (snd (runTurn (SearchSelectBegins (lit "TCS"))
                                initialWorld)))))
    by (vm_compute; reflexivity).
  destruct (@search_select_success env (lit "TCS") initialWorld _ _ E)
    as (w' & R & Hs & _ & V & _).
  exists w'. split; [exact R|]. rewrite Hs. repeat split. exact V.
Defined.

(** X10.  When the analysis of a stock clicked in the list succeeds, and
    no other handler commits between the click and the success, the page is
    left on the analysis screen, not loading, with the analysis; the
    selected stock is the clicked stock with its price replaced by the
    extracted price when that is a number other than 0 (its own price is
    kept otherwise), its name replaced by the extracted company name unless
    that is empty, and its sector replaced by [Analysed] when it was
    [Unknown]; its other fields are kept. *)
Theorem stock_click_success :
  forall env stock w a w1,
    analyzeStockWithGemini env (symbol stock) (price stock) (sector stock)
      (snd (runTurn (StockClickBegins stock) w)) = (Return a, w1) ->
    exists w',
      handleStockClick env stock w = (Return tt, w')
      /\ selectedStock (state w')
         = Some {| symbol := symbol stock;
                   name := if truthyString (Some (companyName a))
                           then companyName a else name stock;
                   sector := if jsstring_eqb (sector stock) UNKNOWN
                             then ANALYSED else sector stock;
                   price := if truthy (currentPrice a)
                            then currentPrice a else price stock;
                   changePercent := changePercent stock;
                   marketCap := marketCap stock;
                   reason := reason stock;
                   score := score stock |}
      /\ analysis (state w') = Some a
      /\ view (state w') = detail
      /\ loading (state w') = false
      /\ (exists shown, screen (state w') = AnalysisScreen shown a
                        /\ selectedStock (state w') = Some shown)
      /\ stocks (state w') = stocks (state w)
      /\ alerts w' = alerts w
      /\ crashed w' = crashed w.
Proof.
  intros env stock w a w1 H.
  rewrite handleStockClick_turns. cbv zeta. rewrite H. cbn [fst snd].
  destruct (settled_world _ _ _ _ _ H) as (S1 & S2 & S3 & S4).
  assert (Hsel : selectedStock (state w1) = Some stock)
    by (rewrite S1; reflexivity).
  rewrite (settle_success _ _ _ Hsel).
  eexists. split; [reflexivity|].
  cbn [committed state alerts crashed selectedStock analysis view loading stocks].
  rewrite S1, S3, S4, num_or_same. cbn.
  repeat split; try reflexivity.
  eexists. split; reflexivity.
Qed.

Lemma stock_click_success_witness :
  let env := sampleEnv (lit "key") [answer (lit "context"); answer (lit "{tcs}")] in
  let stock := {| symbol := lit "TCS"; name := lit "TCS Ltd";
                  sector := lit "IT"; price := Finite 3400;
                  changePercent := Finite 1; marketCap := lit "12T";
                  reason := None; score := None |} in
  exists w',
    handleStockClick env stock initialWorld = (Return tt, w')
    /\ option_map price (selectedStock (state w')) = Some (Finite 3400)
    /\ option_map sector (selectedStock (state w')) = Some (lit "IT").
Proof.
  intros env stock.
  assert (E : analyzeStockWithGemini env (symbol stock) (price stock)
                (sector stock)
                (snd (runTurn (StockClickBegins stock) initialWorld))
              = (Return (sampleAnalysis (lit "Tata Consultancy Services")
                           (Finite 0)),
                 snd (analyzeStockWithGemini env (symbol stock) (price stock)
                        (sector stock)
                        (snd (runTurn (StockClickBegins stock) initialWorld)))))
    by (vm_compute; reflexivity).
  destruct (@stock_click_success env stock initialWorld _ _ E)
    as (w' & R & Hs & _).
  exists w'. split; [exact R|]. rewrite Hs. split; reflexivity.
Defined.

(** ** Without a key *)

Lemma sectorResults_no_key (env : Environment) (rest : list jsstring) :
  truthyString (Some (apiKey env)) = false ->
  forall sent, List.concat (sectorResults env rest sent) = [].
Proof.
  intros K. induction rest as [|s rest IH]; intros sent; [reflexivity|].
  cbn [sectorResults List.concat]. rewrite IH.
  unfold scanQuery. now rewrite K.
Qed.

Lemma analyzeStock_no_key (env : Environment) (symbol' : jsstring)
    (price' : number) (sector' : jsstring) (w : World) :
  truthyString (Some (apiKey env)) = false ->
  analyzeStock env symbol' price' sector' w
  = (Return tt,
     snd (alert ANALYZE_FAILED
            (committed
               {| stocks := stocks (state w);
                  selectedStock := selectedStock (state w);
                  analysis := analysis (state w); loading := false;
                  view := dashboard; scanMode := scanMode (state w);
                  progress := progress (state w);
                  scanStatus := scanStatus (state w) |}
               (snd (analyzeStock_begin w))))).
Proof.
  intros K. rewrite analyzeStock_turns. cbv zeta.
  unfold analyzeStockWithGemini. rewrite K. reflexivity.
Qed.

(** X11.  With no key configured, a click on a stock and a pick in the
    search box both end on the dashboard, not loading, with the alert of a
    failed analysis and the stock still selected; the analysis in the state
    is left as it was and nothing is sent to the service.  A scan then ends
    without alert on an empty list. *)
Theorem without_key_nothing_is_analysed :
  forall env w,
    apiKey env = [] ->
    (forall stock,
       exists w',
         handleStockClick env stock w = (Return tt, w')
         /\ view (state w') = dashboard
         /\ loading (state w') = false
         /\ selectedStock (state w') = Some stock
         /\ analysis (state w') = analysis (state w)
         /\ alerts w' = alerts w ++ [ANALYZE_FAILED]
         /\ requests w' = requests w)
    /\ (forall ticker,
          exists w',
            handleSearchSelect env ticker w = (Return tt, w')
            /\ view (state w') = dashboard
            /\ loading (state w') = false
            /\ selectedStock (state w') = Some (tempStock ticker)
            /\ analysis (state w') = analysis (state w)
            /\ alerts w' = alerts w ++ [ANALYZE_FAILED]
            /\ requests w' = requests w)
    /\ (exists w',
          handleScanForValue env w = (Return tt, w')
          /\ stocks (state w') = []
          /\ scanStatus (state w') = lit "Scan Complete"
          /\ alerts w' = alerts w
          /\ requests w' = requests w).
Proof.
  intros env w K0.
  assert (K : truthyString (Some (apiKey env)) = false) by now rewrite K0.
  split; [|split].
  - intros stock. unfold handleStockClick.
    erewrite bind_Return; [|apply setState_run].
    rewrite (analyzeStock_no_key _ _ _ _ _ K).
    eexists. split; [reflexivity|]. repeat split.
  - intros ticker. unfold handleSearchSelect.
    erewrite bind_Return; [|apply setState_run].
    rewrite (analyzeStock_no_key _ _ _ _ _ K).
    eexists. split; [reflexivity|]. repeat split.
  - destruct (handleScanForValue_run env w)
      as (w' & reset & perSector & final & E & _ & St & _ & _ & _ & Sk & _ & _
          & Ss & Al & _).
    destruct (handleScanForValue_commits env w) as (w2 & new & E2 & _ & _ & _ & R).
    rewrite E in E2. injection E2 as <-. rewrite K in R.
    exists w'. split; [exact E|]. rewrite St.
    rewrite Sk, (sectorResults_no_key _ _ K).
    repeat split; assumption.
Qed.

Lemma without_key_nothing_is_analysed_witness :
  let env := sampleEnv [] [answer (lit "context"); answer (lit "{tcs}")] in
  exists w',
    handleSearchSelect env (lit "TCS") initialWorld = (Return tt, w')
    /\ view (state w') = dashboard
    /\ alerts w' = [ANALYZE_FAILED]
    /\ requests w' = [].
Proof.
  intros env.
  destruct (@without_key_nothing_is_analysed env initialWorld eq_refl)
    as (_ & H & _).
  destruct (H (lit "TCS")) as (w' & E & V & _ & _ & _ & A & R).
  exists w'. repeat split; assumption.
Defined.

(** ** One handler at a time *)

Lemma atRest_dashboard (w : World) :
  atRest w -> screen (state w) = DashboardScreen -> view (state w) = dashboard.
Proof.
  intros (_ & _ & D) S. destruct (view (state w)) eqn:V; [reflexivity|].
  destruct (D eq_refl) as (L & Hs & Ha). unfold screen in S.
  rewrite L, V in S. cbn in S.
  destruct (selectedStock (state w)); [|now elim Hs].
  destruct (analysis (state w)); [discriminate|now elim Ha].
Qed.

Lemma analyzeStock_atRest (env : Environment) (symbol' : jsstring)
    (price' : number) (sector' : jsstring) (w : World) (sel : Stock) :
  crashed w = None ->
  selectedStock (state w) = Some sel ->
  analysis (state w) = None ->
  atRest (snd (analyzeStock env symbol' price' sector' w)).
Proof.
  intros Cr Hsel Ha. rewrite analyzeStock_turns. cbv zeta.
  destruct (analyzeStockWithGemini_settles env symbol' price' sector'
              (snd (analyzeStock_begin w))) as (r & w1 & E & S1 & S2 & S3 & S4).
  rewrite E. cbn [fst snd].
  cbn [analyzeStock_begin setState snd state crashed] in S1, S4.
  destruct r as [a|e].
  - assert (Hsel1 : selectedStock (state w1) = Some sel)
      by (rewrite S1; exact Hsel).
    rewrite (settle_success _ _ _ Hsel1). cbn [snd].
    unfold atRest. cbn [committed state crashed view analysis loading
                        selectedStock].
    rewrite S1, S4. cbn [view].
    split; [exact Cr|]. split; [discriminate|].
    intros _. repeat split; discriminate.
  - cbn [runTurn]. unfold analyzeStock_catch.
    erewrite bind_Return; [|apply setState_run].
    unfold atRest. cbn [alert snd committed state crashed view analysis].
    rewrite S1, S4. cbn [analysis].
    split; [exact Cr|]. split; [intros _; exact Ha|discriminate].
Qed.

Lemma perform_atRest (env : Environment) (toLowerCase : jsstring -> jsstring)
    (w : World) (a : Action) :
  atRest w -> enabled toLowerCase (state w) a ->
  atRest (snd (perform env a w)).
Proof.
  intros R En. pose proof R as (Cr & Hd & Hdet).
  destruct a as [| |stock|ticker|]; cbn [perform enabled] in *.
  - destruct (loadMarketData_run env w)
      as (w' & l & E & _ & _ & _ & _ & _ & _ & (V & _ & A) & _ & C & _).
    rewrite E. cbn [snd]. unfold atRest. rewrite V, A, C.
    split; [exact Cr|]. split; [exact Hd|]. rewrite En. discriminate.
  - destruct En as [Sc _]. pose proof (atRest_dashboard R Sc) as V0.
    destruct (handleScanForValue_commits env w) as (w' & new & E & _ & L & F & _).
    destruct (handleScanForValue_run env w)
      as (w2 & _ & _ & _ & E2 & _ & _ & _ & _ & _ & _ & _ & _ & _ & _ & C).
    rewrite E in E2. injection E2 as <-. rewrite E. cbn [snd].
    assert (H : view (state w') = view (state w)
                /\ analysis (state w') = analysis (state w)).
    { rewrite L. destruct new as [|c new]; [now split|].
      rewrite Forall_forall in F.
      destruct (F _ (last_In (state w) c new)) as (h1 & _ & h3). now split. }
    destruct H as [V A]. unfold atRest. rewrite V, A, C.
    split; [exact Cr|]. split; [exact Hd|]. rewrite V0. discriminate.
  - destruct En as (Sc & _ & _). pose proof (atRest_dashboard R Sc) as V0.
    unfold handleStockClick. erewrite bind_Return; [|apply setState_run].
    apply analyzeStock_atRest with stock; [exact Cr|reflexivity|].
    cbn. now apply Hd.
  - destruct En as (V0 & _).
    unfold handleSearchSelect. erewrite bind_Return; [|apply setState_run].
    apply analyzeStock_atRest with (tempStock ticker); [exact Cr|reflexivity|].
    cbn. now apply Hd.
  - unfold atRest. cbn. split; [exact Cr|]. split; [reflexivity|discriminate].
Qed.

(* ================================================================== *)
(** ** The analysis that fails *)
(* ================================================================== *)






(** X12.  As long as every handler runs to its end before the user
    triggers the next one, through a control that is on the page, the page
    is in one of two conditions: on the dashboard with no analysis in the
    state, or on the detail view, not loading, with a selected stock and its
    analysis; and no state updater has thrown.  The screen shown is then the
    dashboard exactly when the view is the dashboard. *)
Theorem one_handler_at_a_time :
  forall env toLowerCase w,
    Reachable env toLowerCase w ->
    atRest w
    /\ (screen (state w) = DashboardScreen <-> view (state w) = dashboard).
Proof.
  intros env toLowerCase w H.
  assert (R : atRest w).
  { induction H as [|w a H IH En].
    - unfold atRest. cbn. split; [reflexivity|]. split; [reflexivity|discriminate].
    - now apply perform_atRest with toLowerCase. }
  split; [exact R|]. split; [now apply atRest_dashboard|].
  intros V. unfold screen. rewrite V. now rewrite andb_false_r.
Qed.

Lemma one_handler_at_a_time_witness :
  let env := sampleEnv (lit "key") [answer (lit "context"); answer (lit "{bad")] in
  let w := snd (perform env (SearchSelect (lit "TCS")) initialWorld) in
  view (state w) = dashboard /\ analysis (state w) = None /\ atRest w.
Proof.
  intros env w.
  assert (R : Reachable env asciiLower w).
  { apply Reachable_perform; [apply Reachable_mount|].
    split; [reflexivity|]. exists (lit "tcs"). vm_compute. left. reflexivity. }
  destruct (@one_handler_at_a_time env asciiLower w R) as [A _].
  assert (V : view (state w) = dashboard) by (vm_compute; reflexivity).
  split; [exact V|]. split; [|exact A].
  destruct A as (_ & D & _). exact (D V).
Defined.

(** ** Going back while an analysis is pending *)



(** ** The search box *)

Lemma NIFTY_200_TICKERS_NoDup : NoDup NIFTY_200_TICKERS.
Proof.
  assert (H : nodup (list_eq_dec N.eq_dec) NIFTY_200_TICKERS = NIFTY_200_TICKERS)
    by (vm_compute; reflexivity).
  rewrite <- H. apply NoDup_nodup.
Qed.

Lemma firstn_In {A} (n : nat) (l : list A) (x : A) : In x (firstn n l) -> In x l.
Proof.
  revert l. induction n as [|n IH]; intros [|a l]; simpl; try tauto.
  intros [->|H]; [now left|right; now apply IH].
Qed.

Lemma firstn_NoDup {A} (n : nat) (l : list A) : NoDup l -> NoDup (firstn n l).
Proof.
  revert l. induction n as [|n IH]; intros [|a l] H; simpl; try constructor.
  - inversion H; subst. intros Hin. now apply firstn_In in Hin.
  - inversion H; subst. now apply IH.
Qed.

Lemma firstn_short {A} (n : nat) (l : list A) :
  List.length (firstn n l) < n -> firstn n l = l.
Proof.
  intros H. rewrite length_firstn in H. apply firstn_all2. lia.
Qed.

(** X14.  The search box shows at most five suggestions and none for a
    query of fewer than two characters.  Every suggestion is a ticker of the
    universe whose lower-case form contains the lower-case query, no ticker
    is suggested twice, and when fewer than five are shown they are all the
    tickers that match. *)
Theorem suggestions_are_the_first_matches :
  forall toLowerCase searchQuery,
    let shown := suggestions toLowerCase searchQuery in
    List.length shown <= 5
    /\ NoDup shown
    /\ (forall t, In t shown ->
          In t NIFTY_200_TICKERS
          /\ includesString (toLowerCase searchQuery) (toLowerCase t) = true
          /\ 1 < List.length searchQuery)
    /\ (List.length searchQuery <= 1 -> shown = [])
    /\ (List.length shown < 5 -> 1 < List.length searchQuery ->
        forall t, In t NIFTY_200_TICKERS ->
          includesString (toLowerCase searchQuery) (toLowerCase t) = true ->
          In t shown).
Proof.
  intros toLowerCase searchQuery shown. unfold shown, suggestions.
  destruct (Nat.ltb_spec 1 (List.length searchQuery)) as [L|L].
  - split; [apply firstn_le_length|].
    split; [apply firstn_NoDup, NoDup_filter, NIFTY_200_TICKERS_NoDup|].
    split.
    { intros t H. apply firstn_In in H. apply filter_In in H.
      destruct H as [H1 H2]. repeat split; assumption. }
    split; [lia|].
    intros Hlen _ t Ht Hm. rewrite (@firstn_short _ _ _ Hlen).
    apply filter_In. now split.
  - split; [simpl; lia|]. split; [constructor|].
    split; [intros t []|]. split; [reflexivity|]. intros _ H. lia.
Qed.

(** X15.  Every ticker of the universe can be picked through the search
    box: typing a ticker in full brings it among the five suggestions.  The
    tickers are ASCII, and there [toLowerCase] changes the letters A to Z and
    nothing else. *)
Theorem every_ticker_can_be_found :
  forall toLowerCase,
    (forall t, In t NIFTY_200_TICKERS -> toLowerCase t = asciiLower t) ->
    forall t, In t NIFTY_200_TICKERS -> In t (suggestions toLowerCase t).
Proof.
  intros toLowerCase Hlow t Ht.
  assert (All : forallb
                  (fun t =>
                     (1 <? List.length t)
                     && existsb (jsstring_eqb t)
                          (firstn 5
                             (filter (fun x => includesString (asciiLower t)
                                                 (asciiLower x))
                                     NIFTY_200_TICKERS)))
                  NIFTY_200_TICKERS = true) by (vm_compute; reflexivity).
  rewrite forallb_forall in All. specialize (All t Ht).
  apply andb_true_iff in All. destruct All as [L Ex].
  unfold suggestions. rewrite L, (Hlow t Ht).
  rewrite (filter_ext_in
             (fun ticker => includesString (asciiLower t) (toLowerCase ticker))
             (fun x => includesString (asciiLower t) (asciiLower x)));
    [|intros x Hx; now rewrite (Hlow x Hx)].
  apply existsb_exists in Ex. destruct Ex as (x & Hx & E).
  apply jsstring_eqb_eq in E. now subst x.
Qed.

Lemma every_ticker_can_be_found_witness :
  In (lit "M&M") (suggestions asciiLower (lit "M&M")).
Proof.
  apply every_ticker_can_be_found.
  - reflexivity.
  - vm_compute. do 26 right. left. reflexivity.
Defined.

(** ** The analysis view: the label of a source *)

(** X16.  The label of a source link is the title when it has at most 30
    characters, and otherwise its first 30 characters followed by three
    dots; so a label has at most 33 characters and starts like the title. *)
Theorem sourceLabel_is_bounded :
  forall title',
    List.length (sourceLabel title') <= 33
    /\ firstn 30 (sourceLabel title') = firstn 30 title'
    /\ (List.length title' <= 30 -> sourceLabel title' = title')
    /\ (30 < List.length title' ->
        sourceLabel title' = firstn 30 title' ++ lit "..."
        /\ List.length (sourceLabel title') = 33).
Proof.
  intros title'. unfold sourceLabel.
  destruct (Nat.ltb_spec 30 (List.length title')) as [L|L].
  - assert (F : List.length (firstn 30 title') = 30)
      by (rewrite length_firstn; lia).
    split; [rewrite length_app, F; simpl; lia|].
    split.
    { rewrite firstn_app, F, Nat.sub_diag, firstn_O, app_nil_r.
      rewrite firstn_firstn. reflexivity. }
    split; [lia|]. intros _. split; [reflexivity|].
    rewrite length_app, F. reflexivity.
  - split; [lia|]. split; [reflexivity|]. split; [reflexivity|lia].
Qed.

(** ** What the list holds *)

Lemma parsed_stock_wellFormed (text : jsstring) (s : Stock) :
  In s (parseStockCSV text) -> wellFormedStock s.
Proof.
  intros H. apply In_parseStockCSV in H. destruct H as (line & Hl & Hs).
  pose proof (parseLine_kept _ Hs) as K. cbv zeta in K.
  destruct K as (_ & P & H0 & H1 & H2 & H3 & H4 & _).
  assert (C : forall i, cleanField (clean (nth_error (split COMMA line) i))).
  { intros i. apply clean_cleanField. intros c. now apply field_chars with text. }
  unfold wellFormedStock. rewrite H0, H1, H2, H3, H4.
  split; [exact P|]. split; [|split; [apply C|split; apply C]].
  destruct (isNaN (parseFloat (clean (nth_error (split COMMA line) 4)))) eqn:E;
    [reflexivity|exact E].
Qed.

Lemma sectorResults_parsed (env : Environment) (rest : list jsstring) (s : Stock) :
  forall sent,
    In s (List.concat (sectorResults env rest sent)) -> wellFormedStock s.
Proof.
  induction rest as [|sector' rest IH]; intros sent H; [destruct H|].
  cbn [sectorResults List.concat] in H. apply in_app_or in H.
  destruct H as [H|H]; [|now apply IH in H].
  unfold scanQuery in H.
  destruct (negb (truthyString (Some (apiKey env)))); [destruct H|].
  destruct (generateContent env sent (scanRequest env sector')) as [e|r];
    [destruct H|].
  now apply parsed_stock_wellFormed in H.
Qed.

Lemma analyzeStock_keeps_stocks (env : Environment) (symbol' : jsstring)
    (price' : number) (sector' : jsstring) (w : World) :
  stocks (state (snd (analyzeStock env symbol' price' sector' w)))
  = stocks (state w).
Proof.
  rewrite analyzeStock_turns. cbv zeta.
  destruct (analyzeStockWithGemini_settles env symbol' price' sector'
              (snd (analyzeStock_begin w))) as (r & w1 & E & S1 & _).
  rewrite E. cbn [fst snd].
  cbn [analyzeStock_begin setState snd state] in S1.
  destruct r as [a|e]; cbn [runTurn].
  - unfold setStateWith, reconcile.
    destruct (selectedStock (state w1)); cbn [snd state stocks];
      now rewrite S1.
  - unfold analyzeStock_catch. erewrite bind_Return; [|apply setState_run].
    cbn [alert snd committed state stocks]. now rewrite S1.
Qed.

(** X17.  As long as one handler runs at a time, every stock of the list
    was made by the parser: its price and its change are numbers, and its
    symbol, name and sector have no comma, no line feed, no quote and no
    white space at either end.  A refresh and a scan put parsed stocks in
    the list, and selecting, analysing and going back leave the list as it
    is.  So the stock handed to an analysis by a click has a price that is a
    number. *)
Theorem listed_stocks_are_parsed :
  forall env toLowerCase w,
    Reachable env toLowerCase w ->
    Forall wellFormedStock (stocks (state w))
    /\ (forall stock, enabled toLowerCase (state w) (ClickStock stock) ->
          isNaN (price stock) = false).
Proof.
  intros env toLowerCase w H.
  assert (F : Forall wellFormedStock (stocks (state w))).
  { induction H as [|w a H IH En]; [constructor|].
    destruct a as [| |stock|ticker|]; cbn [perform].
    - destruct (loadMarketData_run env w)
        as (w' & l & E & _ & _ & _ & Knone & Rej & Res & _).
      rewrite E. cbn [snd].
      destruct (truthyString (Some (apiKey env))) eqn:K;
        [|rewrite (Knone eq_refl); constructor].
      destruct (generateContent env (requests w) snapshotRequest) as [e|r] eqn:G.
      + rewrite (Rej e eq_refl). constructor.
      + rewrite (Res r eq_refl eq_refl). apply Forall_forall. intros s.
        apply parsed_stock_wellFormed.
    - destruct (handleScanForValue_run env w)
        as (w' & reset & perSector & final & E & _ & St & _ & _ & _ & Sk & _).
      rewrite E. cbn [snd]. rewrite St, Sk. apply Forall_forall. intros s Hs.
      apply firstn_In in Hs.
      apply (Permutation_in _ (@Array_sort_perm Stock byScoreDescending
                                 scoreNotBelow byScoreDescending_order _)) in Hs.
      now apply sectorResults_parsed in Hs.
    - unfold handleStockClick. erewrite bind_Return; [|apply setState_run].
      rewrite analyzeStock_keeps_stocks. exact IH.
    - unfold handleSearchSelect. erewrite bind_Return; [|apply setState_run].
      rewrite analyzeStock_keeps_stocks. exact IH.
    - exact IH. }
  split; [exact F|].
  intros stock (_ & _ & Hin). rewrite Forall_forall in F.
  now destruct (F stock Hin).
Qed.

Lemma listed_stocks_are_parsed_witness :
  let env := sampleEnv (lit "key")
               [answer (lit "TCS,Tata Consultancy,IT,3400.5,1.2,12T")] in
  let w := snd (perform env Refresh initialWorld) in
  map symbol (stocks (state w)) = [lit "TCS"]
  /\ Forall wellFormedStock (stocks (state w)).
Proof.
  intros env w.
  assert (R : Reachable env asciiLower w)
    by (apply Reachable_perform; [apply Reachable_mount|reflexivity]).
  split; [vm_compute; reflexivity|].
  exact (proj1 (@listed_stocks_are_parsed env asciiLower w R)).
Defined.
